(** * The RAG service: chunk a document and embed every chunk

    A shallow embedding of [apps/rag/src]:
    - [config.py]            the [Settings] record and its defaults,
    - [services/chunker.py]  [chunk_document],
    - [services/embedder.py] [generate_embeddings],
    - [api/routes/chunk.py]  the request and response models and the
                             handler [create_chunks] of [POST /chunk].

    The three third-party libraries the code calls are not part of the
    program: LlamaIndex's [SentenceSplitter], pydantic's validation of the
    field [embedding : list[float]] and the remote embedding provider reached
    through [httpx].  They are taken as parameters.  Network activity is
    recorded in an event log threaded through the computation, so that
    "no call was made" and "one call was made" are statements about values. *)

From Stdlib Require Import ZArith List String Ascii Bool Lia.
From Stdlib Require Import Floats.SpecFloat.
From Stdlib Require Import DecimalString.
From Stdlib Require Finite.
Import ListNotations.

Local Open Scope string_scope.
Local Open Scope Z_scope.

(** ** Python values and exceptions *)

Module Py.

(** A Python [float] is an IEEE-754 binary64 number; the program never
    computes with one, it only moves them around. *)
Definition float : Type := spec_float.

#[local] Set Warnings "-register-all".

(** What [response.json()] can return, and what a [dict] field of a
    pydantic model can hold. A [dict] is kept in insertion order. *)
Inductive value : Type :=
| None_
| Bool (b : bool)
| Int (z : Z)
| Float (x : float)
| Str (s : string)
| List (l : list value)
| Dict (d : list (string * value)).

(** Exceptions, all of them subclasses of [Exception].  [Raised cls msg] is
    an exception raised inside a library, known by its class name and by
    what [str] prints for it. *)
Inductive exn : Type :=
| Exception (msg : string)
| KeyError (key : string)
| TypeError (msg : string)
| Raised (cls : string) (msg : string).

Definition class_name (e : exn) : string :=
  match e with
  | Exception _ => "Exception"
  | KeyError _ => "KeyError"
  | TypeError _ => "TypeError"
  | Raised cls _ => cls
  end.

(** [str(e)].  A [KeyError] prints the [repr] of its key; the only keys the
    program looks up are the literals ["data"] and ["embedding"]. *)
Definition str (e : exn) : string :=
  match e with
  | Exception msg => msg
  | KeyError key => "'" ++ key ++ "'"
  | TypeError msg => msg
  | Raised _ msg => msg
  end.

(** A computation that returns or raises. *)
Definition result (A : Type) : Type := (exn + A)%type.

Definition bind {A B : Type} (r : result A) (k : A -> result B) : result B :=
  match r with
  | inl e => inl e
  | inr x => k x
  end.

(** [[f(x) for x in xs]], left to right, stopping at the first exception. *)
Fixpoint for_each {A B : Type} (f : A -> result B) (xs : list A)
    : result (list B) :=
  match xs with
  | [] => inr []
  | x :: rest =>
      bind (f x) (fun y => bind (for_each f rest) (fun ys => inr (y :: ys)))
  end.

Definition type_name (v : value) : string :=
  match v with
  | None_ => "NoneType"
  | Bool _ => "bool"
  | Int _ => "int"
  | Float _ => "float"
  | Str _ => "str"
  | List _ => "list"
  | Dict _ => "dict"
  end.

Fixpoint dict_get (d : list (string * value)) (key : string) : option value :=
  match d with
  | [] => None
  | (k, v) :: rest => if String.eqb k key then Some v else dict_get rest key
  end.

(** [v[key]] for a string [key]; the messages are those of CPython 3.12. *)
Definition getitem (v : value) (key : string) : result value :=
  match v with
  | Dict d =>
      match dict_get d key with
      | Some x => inr x
      | None => inl (KeyError key)
      end
  | List _ => inl (TypeError "list indices must be integers or slices, not str")
  | Str _ => inl (TypeError "string indices must be integers, not 'str'")
  | _ => inl (TypeError ("'" ++ type_name v ++ "' object is not subscriptable"))
  end.

Fixpoint chars (s : string) : list value :=
  match s with
  | EmptyString => []
  | String c rest => Str (String c EmptyString) :: chars rest
  end.

(** The items a [for] loop over [v] visits: the elements of a list, the keys
    of a dict, the characters of a string. *)
Definition iter (v : value) : result (list value) :=
  match v with
  | List l => inr l
  | Dict d => inr (map (fun kv => Str (fst kv)) d)
  | Str s => inr (chars s)
  | _ => inl (TypeError ("'" ++ type_name v ++ "' object is not iterable"))
  end.

(** [x or default] for [x : int | None]: [None] and [0] are falsy. *)
Definition or_default (x : option Z) (default : Z) : Z :=
  match x with
  | None => default
  | Some z => if z =? 0 then default else z
  end.

(** [enumerate(l)], counting from [start]. *)
Fixpoint enumerate_from {A : Type} (start : Z) (l : list A) : list (Z * A) :=
  match l with
  | [] => []
  | x :: rest => (start, x) :: enumerate_from (start + 1) rest
  end.

Definition enumerate {A : Type} (l : list A) : list (Z * A) :=
  enumerate_from 0 l.

(** [zip(xs, ys)] stops at the end of the shorter list. *)
Definition zip {A B : Type} (xs : list A) (ys : list B) : list (A * B) :=
  combine xs ys.

End Py.

(** ** config.py *)

Module Config.

Record Settings : Type := {
  openrouter_api_key : string;
  openrouter_embedding_model : string;
  port : Z;
  host : string;
  default_chunk_size : Z;
  default_chunk_overlap : Z
}.

(** [Settings()] when the environment overrides nothing. *)
Definition defaults : Settings := {|
  openrouter_api_key := "";
  openrouter_embedding_model := "openai/text-embedding-3-small";
  port := 8000;
  host := "0.0.0.0";
  default_chunk_size := 512;
  default_chunk_overlap := 50
|}.

End Config.

(** ** The outbound HTTP client (httpx) *)

Module Net.

(** The JSON body of the request to the provider: [{"model": ..., "input": texts}]. *)
Record body : Type := {
  model : string;
  input : list string
}.

(** The arguments of [client.post]; [timeout] is in seconds. *)
Record request : Type := {
  url : string;
  headers : list (string * string);
  json : body;
  timeout : Z
}.

(** What the handler reads of a response: [response.status_code],
    [response.text], and the outcome of [response.json()]. *)
Record response : Type := {
  status_code : Z;
  text : string;
  decoded : Py.result Py.value
}.

(** Entering [async with httpx.AsyncClient() as client], one [client.post],
    leaving the block. *)
Inductive event : Type :=
| ClientOpened
| Posted (r : request)
| ClientClosed.

Definition log : Type := list event.

(** The provider answers a request, or the transport raises.  The answer may
    depend on everything sent before. *)
Definition provider : Type := log -> request -> Py.result response.

Fixpoint posts (l : log) : list request :=
  match l with
  | [] => []
  | Posted r :: rest => r :: posts rest
  | _ :: rest => posts rest
  end.

End Net.

(** ** Computations that may raise and that use the network *)

Module IO.

(** The log is kept when an exception is raised. *)
Definition io (A : Type) : Type := Net.log -> Py.result A * Net.log.

Definition ret {A : Type} (x : A) : io A := fun l => (inr x, l).

Definition raise {A : Type} (e : Py.exn) : io A := fun l => (inl e, l).

Definition bind {A B : Type} (m : io A) (k : A -> io B) : io B :=
  fun l =>
    match m l with
    | (inr x, l') => k x l'
    | (inl e, l') => (inl e, l')
    end.

Definition lift {A : Type} (r : Py.result A) : io A :=
  fun l => (r, l).

Definition emit (ev : Net.event) : io unit :=
  fun l => (inr tt, (l ++ [ev])%list).

(** [try: body  finally: cleanup], for a [cleanup] that does not raise. *)
Definition finally {A : Type} (m : io A) (cleanup : io unit) : io A :=
  fun l =>
    match m l with
    | (r, l') => (r, snd (cleanup l'))
    end.

End IO.

Declare Scope io_scope.
Delimit Scope io_scope with io.
Notation "x <- m ;; k" := (IO.bind m (fun x => k))
  (at level 61, m at next level, right associativity) : io_scope.
Notation "m ;; k" := (IO.bind m (fun _ => k))
  (at level 61, right associativity) : io_scope.

(** ** services/chunker.py *)

(** LlamaIndex, as far as the program uses it: [Document(text=...)],
    [SentenceSplitter(chunk_size=..., chunk_overlap=...)], which may reject
    its arguments, [splitter.get_nodes_from_documents(documents)] and
    [node.get_content()]. *)
Module LlamaIndex.

Record Document : Type := { doc_text : string }.

Class Lib : Type := {
  splitter : Type;
  node : Type;
  SentenceSplitter : Z -> Z -> Py.result splitter;
  get_nodes_from_documents : splitter -> list Document -> Py.result (list node);
  get_content : node -> string
}.

End LlamaIndex.

Module Chunker.
Import LlamaIndex.

(** A chunk dictionary [{"content": ..., "chunk_index": ...}]. *)
Record chunk : Type := {
  content : string;
  chunk_index : Z
}.

Section WithLib.
Context {lib : Lib}.
Variable settings : Config.Settings.

(** The two values handed to [SentenceSplitter], lines 23 and 24. *)
Definition splitter_args (chunk_size chunk_overlap : option Z) : Z * Z :=
  (Py.or_default chunk_size (Config.default_chunk_size settings),
   Py.or_default chunk_overlap (Config.default_chunk_overlap settings)).

(** The dictionary built at lines 41 to 44 from [idx, node]. *)
Definition chunk_of (idx_node : Z * node) : chunk :=
  {| content := get_content (snd idx_node);
     chunk_index := fst idx_node |}.

(** The loop of lines 39 to 44: one [append] per enumerated node. *)
Definition to_chunks (nodes : list node) : list chunk :=
  fold_left (fun chunks idx_node => (chunks ++ [chunk_of idx_node])%list)
    (Py.enumerate nodes) [].

Definition chunk_document (content : string)
    (chunk_size chunk_overlap : option Z) : Py.result (list chunk) :=
  let '(chunk_size, chunk_overlap) := splitter_args chunk_size chunk_overlap in
  let document := {| doc_text := content |} in
  match SentenceSplitter chunk_size chunk_overlap with
  | inl e => inl e
  | inr splitter =>
      match get_nodes_from_documents splitter [document] with
      | inl e => inl e
      | inr nodes => inr (to_chunks nodes)
      end
  end.

End WithLib.
End Chunker.

(** ** services/embedder.py *)

Module Embedder.
Import IO.
Local Open Scope io_scope.

Definition OPENROUTER_EMBEDDINGS_URL : string :=
  "https://openrouter.ai/api/v1/embeddings".

Section WithProvider.
Variable remote : Net.provider.
Variable settings : Config.Settings.

(** [await client.post(...)]: the request is logged, then answered. *)
Definition post (r : Net.request) : io Net.response :=
  fun l => (remote l r, (l ++ [Net.Posted r])%list).

(** [async with httpx.AsyncClient() as client: body]. *)
Definition with_client {A : Type} (body : io A) : io A :=
  emit Net.ClientOpened ;; finally body (emit Net.ClientClosed).

Definition embeddings_request (texts : list string) : Net.request := {|
  Net.url := OPENROUTER_EMBEDDINGS_URL;
  Net.headers :=
    [("Authorization", "Bearer " ++ Config.openrouter_api_key settings);
     ("Content-Type", "application/json")];
  Net.json := {| Net.model := Config.openrouter_embedding_model settings;
                 Net.input := texts |};
  Net.timeout := 60
|}.

(** Lines 69 and 70, which use no network:
    [data = response.json()] and
    [[item["embedding"] for item in data["data"]]]. *)
Definition embeddings_of (response : Net.response) : Py.result (list Py.value) :=
  Py.bind (Net.decoded response) (fun data =>
  Py.bind (Py.getitem data "data") (fun entries =>
  Py.bind (Py.iter entries) (fun items =>
  Py.for_each (fun item => Py.getitem item "embedding") items))).

Definition generate_embeddings (texts : list string) : io (list Py.value) :=
  match texts with
  | [] => ret []
  | _ =>
      with_client (
        response <- post (embeddings_request texts) ;;
        if negb (Net.status_code response =? 200)
        then raise (Py.Exception
                      ("OpenRouter embedding failed: " ++ Net.text response))
        else lift (embeddings_of response))
  end.

End WithProvider.
End Embedder.

(** ** api/routes/chunk.py *)

Module Route.
Import IO.
Local Open Scope io_scope.

(** A [dict | None] field. *)
Definition metadata_t : Type := option (list (string * Py.value)).

Record ChunkRequest : Type := {
  req_content : string;
  req_metadata : metadata_t;
  req_chunk_size : option Z;
  req_chunk_overlap : option Z
}.

Record ChunkResponse : Type := {
  content : string;
  embedding : list Py.float;
  chunk_index : Z;
  metadata : metadata_t
}.

Record ChunkResult : Type := {
  chunks : list ChunkResponse;
  total_chunks : Z
}.

(** [HTTPException(status_code=..., detail=...)]; FastAPI answers it with
    that status and the body [{"detail": detail}]. *)
Record HTTPException : Type := {
  status_code : Z;
  detail : string
}.

(** Line 77: [HTTPException(status_code=500, detail=str(e))]. *)
Definition internal_error (e : Py.exn) : HTTPException :=
  {| status_code := 500; detail := Py.str e |}.

(** What the handler hands back to FastAPI. *)
Inductive outcome : Type :=
| Returned (r : ChunkResult)
| Failed (e : HTTPException).


Section Handler.
Context {lib : LlamaIndex.Lib}.
(** pydantic's validation of a value given for [embedding : list[float]]. *)
Variable as_float_list : Py.value -> Py.result (list Py.float).
Variable remote : Net.provider.
Variable settings : Config.Settings.

(** The record built at lines 66 to 72, once [embedding] has passed
    validation; the other three fields are given values of their declared
    types. *)
Definition response_of (metadata : metadata_t)
    (chunk : Chunker.chunk) (floats : list Py.float) : ChunkResponse :=
  {| content := Chunker.content chunk;
     embedding := floats;
     chunk_index := Chunker.chunk_index chunk;
     metadata := metadata |}.

Definition new_ChunkResponse (chunk : Chunker.chunk) (embedding : Py.value)
    (metadata : metadata_t) : Py.result ChunkResponse :=
  match as_float_list embedding with
  | inl e => inl e
  | inr floats => inr (response_of metadata chunk floats)
  end.

(** The loop of lines 63 to 72. *)
Fixpoint assemble (pairs : list (Chunker.chunk * Py.value))
    (metadata : metadata_t) (result_chunks : list ChunkResponse)
    : Py.result (list ChunkResponse) :=
  match pairs with
  | [] => inr result_chunks
  | (chunk, embedding) :: rest =>
      match new_ChunkResponse chunk embedding metadata with
      | inl e => inl e
      | inr c => assemble rest metadata (result_chunks ++ [c])%list
      end
  end.

(** The body of the [try] block. *)
Definition create_chunks_body (request : ChunkRequest) : io ChunkResult :=
  chunks <- lift (Chunker.chunk_document settings (req_content request)
                    (req_chunk_size request) (req_chunk_overlap request)) ;;
  match chunks with
  | [] => ret {| chunks := []; total_chunks := 0 |}
  | _ =>
      let chunk_contents := map Chunker.content chunks in
      embeddings <- Embedder.generate_embeddings remote settings chunk_contents ;;
      result_chunks <- lift (assemble (Py.zip chunks embeddings)
                                      (req_metadata request) []) ;;
      ret {| chunks := result_chunks;
             total_chunks := Z.of_nat (List.length result_chunks) |}
  end.

(** [try: ... except Exception as e: raise HTTPException(500, str(e))]. *)
Definition create_chunks (request : ChunkRequest) (l : Net.log)
    : outcome * Net.log :=
  match create_chunks_body request l with
  | (inr r, l') => (Returned r, l')
  | (inl e, l') => (Failed (internal_error e), l')
  end.

End Handler.
End Route.

(** ** Words for the statements *)

Module Contract.

(** The sizes the splitter is meant for: a positive size and an overlap that
    is not negative and stays below it. *)
Definition valid_args (args : Z * Z) : Prop :=
  0 < fst args /\ 0 <= snd args < fst args.


End Contract.

(** ** Doubles of the three libraries, to run the program on examples *)

Module Double.
Import LlamaIndex.

(** Cuts after every full stop; what follows the last one is a segment of
    its own when it is not empty. *)
Fixpoint sentences (current : string) (s : string) : list string :=
  match s with
  | EmptyString =>
      match current with
      | EmptyString => []
      | _ => [current]
      end
  | String c rest =>
      if Ascii.eqb c "."%char
      then (current ++ ".") :: sentences "" rest
      else sentences (current ++ String c "") rest
  end.

(** Like the library, the double refuses an overlap above the size. *)
#[export] Instance by_sentence : Lib := {|
  splitter := unit;
  node := string;
  SentenceSplitter size overlap :=
    if overlap >? size
    then inl (Py.Raised "ValueError"
                "Got a larger chunk overlap than chunk size, should be smaller.")
    else inr tt;
  get_nodes_from_documents _ documents :=
    inr (flat_map (fun d => sentences "" (doc_text d)) documents);
  get_content n := n
|}.

(** Accepts a list of floats and nothing else. *)
Fixpoint floats_of (l : list Py.value) : Py.result (list Py.float) :=
  match l with
  | [] => inr []
  | Py.Float x :: rest =>
      match floats_of rest with
      | inl e => inl e
      | inr xs => inr (x :: xs)
      end
  | _ :: _ => inl (Py.Raised "ValidationError" "Input should be a valid number")
  end.

Definition as_float_list (v : Py.value) : Py.result (list Py.float) :=
  match v with
  | Py.List l => floats_of l
  | _ => inl (Py.Raised "ValidationError" "Input should be a valid list")
  end.

Definition zero : Py.float := S754_zero false.
Definition one : Py.float := S754_finite false 4503599627370496 (-52).

(** A two-dimensional vector that tells a text of even length from one of
    odd length. *)
Definition vector_of (t : string) : list Py.float :=
  [one; if Nat.even (String.length t) then zero else one].

Definition item_of (floats : list Py.float) : Py.value :=
  Py.Dict [("embedding", Py.List (map Py.Float floats))].

Definition payload (vectors : list (list Py.float)) : Py.value :=
  Py.Dict [("data", Py.List (map item_of vectors))].

Definition ok (vectors : list (list Py.float)) : Net.response := {|
  Net.status_code := 200;
  Net.text := "";
  Net.decoded := inr (payload vectors)
|}.

(** One vector per text, in the order of the texts. *)
Definition faithful : Net.provider :=
  fun _ r => inr (ok (map vector_of (Net.input (Net.json r)))).

(** One vector, however many texts were sent. *)
Definition stingy : Net.provider :=
  fun _ r => inr (ok [vector_of ""]).

(** A refusal: the given status and text, and a body that is not JSON. *)
Definition refusing (status : Z) (text : string) : Net.provider :=
  fun _ _ =>
    inr {| Net.status_code := status;
           Net.text := text;
           Net.decoded := inl (Py.Raised "JSONDecodeError"
                                 "Expecting value: line 1 column 1 (char 0)") |}.

Definition three_sentences : string :=
  "Sentence one. Sentence two. Sentence three.".

Definition request_of (content : string) (size overlap : option Z)
    : Route.ChunkRequest := {|
  Route.req_content := content;
  Route.req_metadata := Some [("source", Py.Str "manual")];
  Route.req_chunk_size := size;
  Route.req_chunk_overlap := overlap
|}.

End Double.

(** ** A double that follows LlamaIndex on texts without a word *)

Module Edge.
Import LlamaIndex.

(** The characters [str.strip] removes, among the ASCII ones. *)
Definition is_space (c : ascii) : bool :=
  let n := nat_of_ascii c in
  ((9 <=? n) && (n <=? 13) || (n =? 32) || (28 <=? n) && (n <=? 31))%nat.

Fixpoint blank (s : string) : bool :=
  match s with
  | EmptyString => true
  | String c rest => is_space c && blank rest
  end.

Definition decimal (z : Z) : string := NilZero.string_of_int (Z.to_int z).

(** What [SentenceSplitter] does on the edges: an overlap above the size is
    refused; the empty text comes back as one node with the empty text; a
    text of blanks only gives no node, since a segment that is empty once
    stripped is dropped.  A text with a word is cut like [Double.by_sentence]
    cuts it. *)
#[export] Instance like_llama_index : Lib := {|
  splitter := unit;
  node := string;
  SentenceSplitter size overlap :=
    if overlap >? size
    then inl (Py.Raised "ValueError"
                ("Got a larger chunk overlap (" ++ decimal overlap
                 ++ ") than chunk size (" ++ decimal size
                 ++ "), should be smaller."))
    else inr tt;
  get_nodes_from_documents _ documents :=
    inr (flat_map
           (fun d =>
              match doc_text d with
              | EmptyString => [EmptyString]
              | text => if blank text then [] else Double.sentences "" text
              end)
           documents);
  get_content n := n
|}.

End Edge.

(** ** services/embedder.py, the single-text function *)

(** [generate_embedding] sends [{"model": ..., "input": text}] with one
    string for [input], so its requests are of another shape than those of
    [generate_embeddings] and are logged apart. *)
Module Single.

Record body : Type := {
  model : string;
  input : string
}.

Record request : Type := {
  url : string;
  headers : list (string * string);
  json : body;
  timeout : Z
}.

Inductive event : Type :=
| ClientOpened
| Posted (r : request)
| ClientClosed.

Definition log : Type := list event.

Definition provider : Type := log -> request -> Py.result Net.response.

Fixpoint posts (l : log) : list request :=
  match l with
  | [] => []
  | Posted r :: rest => r :: posts rest
  | _ :: rest => posts rest
  end.

(** The same kind of computation as [IO.io], over this log. *)
Definition io (A : Type) : Type := log -> Py.result A * log.

Definition ret {A : Type} (x : A) : io A := fun l => (inr x, l).

Definition raise {A : Type} (e : Py.exn) : io A := fun l => (inl e, l).

Definition bind {A B : Type} (m : io A) (k : A -> io B) : io B :=
  fun l =>
    match m l with
    | (inr x, l') => k x l'
    | (inl e, l') => (inl e, l')
    end.

Definition lift {A : Type} (r : Py.result A) : io A :=
  fun l => (r, l).

Definition emit (ev : event) : io unit :=
  fun l => (inr tt, (l ++ [ev])%list).

Definition finally {A : Type} (m : io A) (cleanup : io unit) : io A :=
  fun l =>
    match m l with
    | (r, l') => (r, snd (cleanup l'))
    end.

(** [v[0]]; the messages are those of CPython 3.12.  The keys of a decoded
    JSON object are strings, so the integer 0 is never one of them. *)
Definition getitem0 (v : Py.value) : Py.result Py.value :=
  match v with
  | Py.List [] => inl (Py.Raised "IndexError" "list index out of range")
  | Py.List (x :: _) => inr x
  | Py.Str EmptyString =>
      inl (Py.Raised "IndexError" "string index out of range")
  | Py.Str (String c _) => inr (Py.Str (String c EmptyString))
  | Py.Dict _ => inl (Py.Raised "KeyError" "0")
  | _ => inl (Py.TypeError
                ("'" ++ Py.type_name v ++ "' object is not subscriptable"))
  end.

Section WithProvider.
Variable remote : provider.
Variable settings : Config.Settings.

Definition post (r : request) : io Net.response :=
  fun l => (remote l r, (l ++ [Posted r])%list).

Definition with_client {A : Type} (body : io A) : io A :=
  bind (emit ClientOpened) (fun _ => finally body (emit ClientClosed)).

Definition embedding_request (text : string) : request := {|
  url := Embedder.OPENROUTER_EMBEDDINGS_URL;
  headers :=
    [("Authorization", "Bearer " ++ Config.openrouter_api_key settings);
     ("Content-Type", "application/json")];
  json := {| model := Config.openrouter_embedding_model settings;
             input := text |};
  timeout := 30
|}.

(** Lines 35 and 36: [data = response.json()] and
    [data["data"][0]["embedding"]]. *)
Definition first_embedding_of (response : Net.response) : Py.result Py.value :=
  Py.bind (Net.decoded response) (fun data =>
  Py.bind (Py.getitem data "data") (fun entries =>
  Py.bind (getitem0 entries) (fun first =>
  Py.getitem first "embedding"))).

Definition generate_embedding (text : string) : io Py.value :=
  with_client (
    bind (post (embedding_request text)) (fun response =>
    if negb (Net.status_code response =? 200)
    then raise (Py.Exception
                  ("OpenRouter embedding failed: " ++ Net.text response))
    else lift (first_embedding_of response))).

End WithProvider.
End Single.

(** * Properties *)

Local Open Scope list_scope.

(** ** The splitter *)

Section ChunkerFacts.
Import LlamaIndex.
Context {lib : Lib}.

Lemma append_loop (pairs : list (Z * node)) (chunks : list Chunker.chunk) :
  fold_left (fun chunks idx_node => chunks ++ [Chunker.chunk_of idx_node])
    pairs chunks
  = chunks ++ map Chunker.chunk_of pairs.
Proof.
  revert chunks.
  induction pairs as [|p pairs IH]; intros chunks; simpl.
  - now rewrite app_nil_r.
  - rewrite IH, <- app_assoc. reflexivity.
Qed.

Lemma to_chunks_map (nodes : list node) :
  Chunker.to_chunks nodes = map Chunker.chunk_of (Py.enumerate nodes).
Proof.
  unfold Chunker.to_chunks.
  exact (append_loop (Py.enumerate nodes) []).
Qed.

Lemma enumerate_from_fst {A : Type} (l : list A) (start : Z) :
  map fst (Py.enumerate_from start l)
  = map (fun i => start + Z.of_nat i) (seq 0 (List.length l)).
Proof.
  revert start.
  induction l as [|x l IH]; intros start; simpl.
  - reflexivity.
  - f_equal.
    + lia.
    + rewrite IH, <- seq_shift, map_map.
      apply map_ext. intros i. lia.
Qed.

Lemma enumerate_from_snd {A : Type} (l : list A) (start : Z) :
  map snd (Py.enumerate_from start l) = l.
Proof.
  revert start.
  induction l as [|x l IH]; intros start; simpl; [reflexivity|].
  now rewrite IH.
Qed.

Lemma to_chunks_length (nodes : list node) :
  List.length (Chunker.to_chunks nodes) = List.length nodes.
Proof.
  rewrite to_chunks_map, length_map.
  rewrite <- (enumerate_from_snd nodes 0) at 2.
  now rewrite length_map.
Qed.

Lemma to_chunks_indices (nodes : list node) :
  map Chunker.chunk_index (Chunker.to_chunks nodes)
  = map Z.of_nat (seq 0 (List.length nodes)).
Proof.
  rewrite to_chunks_map, map_map. simpl.
  change (map (fun x => fst x) (Py.enumerate nodes))
    with (map fst (Py.enumerate_from 0 nodes)).
  rewrite enumerate_from_fst.
  apply map_ext. intros i. lia.
Qed.

Lemma to_chunks_contents (nodes : list node) :
  map Chunker.content (Chunker.to_chunks nodes) = map get_content nodes.
Proof.
  rewrite to_chunks_map, map_map. simpl.
  rewrite <- (enumerate_from_snd nodes 0) at 2.
  now rewrite map_map.
Qed.

(** What [chunk_document] does with the library, once the two sizes are
    settled. *)
Lemma chunk_document_unfold (settings : Config.Settings) (content : string)
    (chunk_size chunk_overlap : option Z) :
  Chunker.chunk_document settings content chunk_size chunk_overlap
  = match SentenceSplitter
            (fst (Chunker.splitter_args settings chunk_size chunk_overlap))
            (snd (Chunker.splitter_args settings chunk_size chunk_overlap)) with
    | inl e => inl e
    | inr s =>
        match get_nodes_from_documents s [{| doc_text := content |}] with
        | inl e => inl e
        | inr nodes => inr (Chunker.to_chunks nodes)
        end
    end.
Proof. reflexivity. Qed.

End ChunkerFacts.

(** C3, as the program has it.  Whenever the library accepts the settled
    sizes and splits the text, [chunk_document] returns, without raising, one
    chunk per node of the library; the list is empty exactly when the library
    found no node.  Whatever list [chunk_document] returns, its [chunk_index]
    fields are 0, 1, ..., N-1 in the order of the list, with no gap and no
    repeat. *)
Theorem chunk_document_numbering {lib : LlamaIndex.Lib}
    (settings : Config.Settings) (content : string)
    (chunk_size chunk_overlap : option Z) :
  let args := Chunker.splitter_args settings chunk_size chunk_overlap in
  let chunked :=
    Chunker.chunk_document settings content chunk_size chunk_overlap in
  (forall s nodes,
     LlamaIndex.SentenceSplitter (fst args) (snd args) = inr s ->
     LlamaIndex.get_nodes_from_documents s
       [{| LlamaIndex.doc_text := content |}] = inr nodes ->
     exists chunks,
       chunked = inr chunks
       /\ List.length chunks = List.length nodes
       /\ (chunks = [] <-> nodes = []))
  /\ (forall chunks,
        chunked = inr chunks ->
        map Chunker.chunk_index chunks
          = map Z.of_nat (seq 0 (List.length chunks))
        /\ NoDup (map Chunker.chunk_index chunks)).
Proof.
  intros args chunked. subst args chunked.
  rewrite chunk_document_unfold.
  split.
  - intros s nodes Hs Hnodes. rewrite Hs, Hnodes.
    exists (Chunker.to_chunks nodes).
    split; [reflexivity|]. split; [apply to_chunks_length|].
    rewrite <- !length_zero_iff_nil, to_chunks_length. reflexivity.
  - intros chunks.
    destruct (LlamaIndex.SentenceSplitter _ _) as [e|s]; [discriminate|].
    destruct (LlamaIndex.get_nodes_from_documents s _) as [e|nodes];
      [discriminate|].
    intros H. injection H as <-.
    assert (Hidx : map Chunker.chunk_index (Chunker.to_chunks nodes)
                   = map Z.of_nat
                       (seq 0 (List.length (Chunker.to_chunks nodes)))).
    { rewrite to_chunks_length. apply to_chunks_indices. }
    split; [exact Hidx|].
    rewrite Hidx. apply Finite.Injective_map_NoDup.
    + intros a b Hab. now apply Nat2Z.inj.
    + apply seq_NoDup.
Qed.

Lemma chunk_document_numbering_witness :
  exists chunks,
    Chunker.chunk_document (lib := Double.by_sentence) Config.defaults
      Double.three_sentences (Some 20) (Some 5) = inr chunks
    /\ List.length chunks = 3%nat
    /\ (chunks = []
        <-> ["Sentence one."; " Sentence two."; " Sentence three."]%string = []).
Proof.
  pose proof (chunk_document_numbering (lib := Double.by_sentence)
                Config.defaults Double.three_sentences (Some 20) (Some 5))
    as [Hreturns _].
  exact (Hreturns tt
           ["Sentence one."; " Sentence two."; " Sentence three."]%string
           eq_refl eq_refl).
Defined.

(** C3, as the specification words it, does not hold.  A text of one blank
    is not empty and the default sizes are sizes the splitter is meant for,
    yet the list of chunks is empty, the library having dropped the blank
    segment.  And a size of 20 with an overlap of 0 are valid sizes, yet the
    call raises: the 0 gives way to the default 50, which the library refuses
    as above the size. *)
Lemma blank_text_no_chunk :
  " "%string <> ""%string
  /\ Contract.valid_args (Chunker.splitter_args Config.defaults None None)
  /\ Chunker.chunk_document (lib := Edge.like_llama_index) Config.defaults
       " " None None = inr []
  /\ Contract.valid_args (20, 0)
  /\ Chunker.splitter_args Config.defaults (Some 20) (Some 0) = (20, 50)
  /\ Chunker.chunk_document (lib := Edge.like_llama_index) Config.defaults
       "Hello." (Some 20) (Some 0)
     = inl (Py.Raised "ValueError"
              "Got a larger chunk overlap (50) than chunk size (20), should be smaller.").
Proof.
  unfold Contract.valid_args.
  repeat split; simpl; try lia; discriminate.
Qed.

(** C10. [x or default] treats an explicit 0 like an omitted value: the
    configured default (512 for the size and 50 for the overlap, unless the
    environment says otherwise) takes its place, so that the overlap handed
    to the splitter is 0 only if the configured default is; every other
    integer a request gives is the one [SentenceSplitter] is constructed
    with.  The first part says what [chunk_document] hands to the library:
    the value given when it is not 0, the default otherwise. *)
Theorem zero_is_omitted {lib : LlamaIndex.Lib} (settings : Config.Settings)
    (content : string) (chunk_size chunk_overlap : option Z) :
  let handed size overlap :=
    match LlamaIndex.SentenceSplitter size overlap with
    | inl e => inl e
    | inr s =>
        match LlamaIndex.get_nodes_from_documents s
                [{| LlamaIndex.doc_text := content |}] with
        | inl e => inl e
        | inr nodes => inr (Chunker.to_chunks nodes)
        end
    end in
  let settles (x : option Z) (default value : Z) :=
    ((x = None \/ x = Some 0) /\ value = default)
    \/ (x = Some value /\ value <> 0) in
  (forall size overlap,
     settles chunk_size (Config.default_chunk_size settings) size ->
     settles chunk_overlap (Config.default_chunk_overlap settings) overlap ->
     Chunker.chunk_document settings content chunk_size chunk_overlap
     = handed size overlap)
  /\ Chunker.chunk_document settings content (Some 0) chunk_overlap
    = Chunker.chunk_document settings content None chunk_overlap
  /\ Chunker.chunk_document settings content chunk_size (Some 0)
    = Chunker.chunk_document settings content chunk_size None
  /\ Chunker.splitter_args settings (Some 0) (Some 0)
    = (Config.default_chunk_size settings,
       Config.default_chunk_overlap settings)
  /\ Chunker.splitter_args Config.defaults (Some 0) (Some 0) = (512, 50)
  /\ snd (Chunker.splitter_args Config.defaults chunk_size chunk_overlap) <> 0
  /\ (snd (Chunker.splitter_args settings chunk_size chunk_overlap) = 0 ->
      Config.default_chunk_overlap settings = 0)
  /\ (forall size, size <> 0 ->
      fst (Chunker.splitter_args settings (Some size) chunk_overlap) = size)
  /\ (forall overlap, overlap <> 0 ->
      snd (Chunker.splitter_args settings chunk_size (Some overlap)) = overlap).
Proof.
  intros handed settles.
  assert (Hsettled : forall x default value,
             settles x default value -> Py.or_default x default = value).
  { intros x default value [[[->| ->] ->]|[-> Hvalue]]; simpl;
      try reflexivity.
    destruct (Z.eqb_spec value 0); [contradiction | reflexivity]. }
  split.
  { intros size overlap Hsize Hoverlap.
    rewrite chunk_document_unfold. unfold Chunker.splitter_args. cbn [fst snd].
    rewrite (Hsettled _ _ _ Hsize), (Hsettled _ _ _ Hoverlap).
    reflexivity. }
  repeat split.
  - simpl. destruct chunk_overlap as [z|]; simpl; [|discriminate].
    destruct (Z.eqb_spec z 0); [discriminate | assumption].
  - simpl. destruct chunk_overlap as [z|]; simpl; [|auto].
    destruct (Z.eqb_spec z 0); [auto | contradiction].
  - intros size Hsize. simpl.
    destruct (Z.eqb_spec size 0); [contradiction | reflexivity].
  - intros overlap Hoverlap. simpl.
    destruct (Z.eqb_spec overlap 0); [contradiction | reflexivity].
Qed.

Lemma zero_is_omitted_witness :
  Chunker.chunk_document (lib := Edge.like_llama_index) Config.defaults
    "Hello." (Some 40) (Some 0)
  = inl (Py.Raised "ValueError"
           "Got a larger chunk overlap (50) than chunk size (40), should be smaller.")
  /\ fst (Chunker.splitter_args Config.defaults (Some 256) (Some 0)) = 256
  /\ snd (Chunker.splitter_args Config.defaults (Some 0) (Some (-3))) = -3.
Proof.
  pose proof (zero_is_omitted (lib := Edge.like_llama_index) Config.defaults
                "Hello." (Some 40) (Some 0)) as [Hhanded _].
  pose proof (zero_is_omitted (lib := Double.by_sentence) Config.defaults
                "" (Some 0) (Some 0))
    as (_ & _ & _ & _ & _ & _ & _ & Hsize & Hoverlap).
  split; [|split].
  - apply (Hhanded 40 50).
    + right. split; [reflexivity | lia].
    + left. split; [right; reflexivity | reflexivity].
  - apply Hsize. lia.
  - apply Hoverlap. lia.
Defined.

(** ** The embedding client *)

Section EmbedderFacts.
Variable remote : Net.provider.
Variable settings : Config.Settings.

Lemma posts_app (l l' : Net.log) :
  Net.posts (l ++ l') = Net.posts l ++ Net.posts l'.
Proof.
  induction l as [|ev l IH]; simpl; [reflexivity|].
  destruct ev; simpl; now rewrite IH.
Qed.

(** One run of [generate_embeddings] on a list that is not empty: the client
    is opened, one request is posted, the client is closed, whatever the
    answer. *)
Lemma generate_embeddings_run (texts : list string) (l : Net.log) :
  texts <> [] ->
  Embedder.generate_embeddings remote settings texts l
  = (match remote (l ++ [Net.ClientOpened])
             (Embedder.embeddings_request settings texts) with
     | inl e => inl e
     | inr response =>
         if Net.status_code response =? 200
         then Embedder.embeddings_of response
         else inl (Py.Exception
                     ("OpenRouter embedding failed: " ++ Net.text response)%string)
     end,
     l ++ [Net.ClientOpened;
           Net.Posted (Embedder.embeddings_request settings texts);
           Net.ClientClosed]).
Proof.
  intros Htexts.
  destruct texts as [|t texts]; [contradiction|].
  unfold Embedder.generate_embeddings, Embedder.with_client, Embedder.post,
    IO.bind, IO.finally, IO.emit, IO.raise, IO.lift.
  cbv beta iota. simpl snd.
  destruct (remote (l ++ [Net.ClientOpened])
              (Embedder.embeddings_request settings (t :: texts)))
    as [e|response].
  - rewrite <- !app_assoc. reflexivity.
  - destruct (Net.status_code response =? 200); simpl;
      rewrite <- !app_assoc; reflexivity.
Qed.

Lemma for_each_length {A B : Type} (f : A -> Py.result B) (xs : list A)
    (ys : list B) :
  Py.for_each f xs = inr ys -> List.length ys = List.length xs.
Proof.
  revert ys.
  induction xs as [|x xs IH]; intros ys; simpl.
  - intros H. injection H as <-. reflexivity.
  - destruct (f x) as [e|y]; simpl; [discriminate|].
    destruct (Py.for_each f xs) as [e|ys']; simpl; [discriminate|].
    intros H. injection H as <-. simpl. f_equal. now apply IH.
Qed.

End EmbedderFacts.

(** C7. On the empty list [generate_embeddings] returns the empty list and
    leaves the network untouched: no client is opened and nothing is posted,
    whatever the provider would have answered. *)
Theorem no_text_no_call (remote : Net.provider) (settings : Config.Settings)
    (l : Net.log) :
  Embedder.generate_embeddings remote settings [] l = (inr [], l).
Proof. reflexivity. Qed.

(** ** The handler of [POST /chunk] *)

Section HandlerFacts.
Context {lib : LlamaIndex.Lib}.
Variable as_float_list : Py.value -> Py.result (list Py.float).
Variable remote : Net.provider.
Variable settings : Config.Settings.

Let chunk_document := Chunker.chunk_document settings.
Let generate_embeddings := Embedder.generate_embeddings remote settings.
Let create_chunks := Route.create_chunks as_float_list remote settings.
Let assemble := Route.assemble as_float_list.

Let failed (e : Py.exn) := Route.Failed (Route.internal_error e).

(** The handler, path by path. *)
Lemma create_chunks_run (request : Route.ChunkRequest) (l : Net.log) :
  create_chunks request l
  = match chunk_document (Route.req_content request)
            (Route.req_chunk_size request) (Route.req_chunk_overlap request) with
    | inl e => (failed e, l)
    | inr [] => (Route.Returned {| Route.chunks := []; Route.total_chunks := 0 |}, l)
    | inr chunks =>
        match generate_embeddings (map Chunker.content chunks) l with
        | (inl e, l') => (failed e, l')
        | (inr embeddings, l') =>
            match assemble (Py.zip chunks embeddings)
                    (Route.req_metadata request) [] with
            | inl e => (failed e, l')
            | inr result_chunks =>
                (Route.Returned
                   {| Route.chunks := result_chunks;
                      Route.total_chunks := Z.of_nat (List.length result_chunks) |},
                 l')
            end
        end
    end.
Proof.
  unfold create_chunks, Route.create_chunks, Route.create_chunks_body,
    chunk_document, generate_embeddings, assemble, failed, IO.bind, IO.lift,
    IO.ret.
  destruct (Chunker.chunk_document settings (Route.req_content request)
              (Route.req_chunk_size request) (Route.req_chunk_overlap request))
    as [e|[|c chunks]]; try reflexivity.
  destruct (Embedder.generate_embeddings remote settings
              (map Chunker.content (c :: chunks)) l) as [[e|embeddings] l'];
    try reflexivity.
  destruct (Route.assemble as_float_list (Py.zip (c :: chunks) embeddings)
              (Route.req_metadata request) []); reflexivity.
Qed.

(** Pairing by position: the first [min n m] vectors are validated, in
    order, and each is attached to the chunk at the same position. *)
Lemma assemble_positions (metadata : Route.metadata_t)
    (chunks : list Chunker.chunk) (vectors : list Py.value)
    (floats : list (list Py.float)) (done : list Route.ChunkResponse) :
  Py.for_each as_float_list (firstn (List.length chunks) vectors) = inr floats ->
  assemble (Py.zip chunks vectors) metadata done
  = inr (done ++ map (fun cf => Route.response_of metadata (fst cf) (snd cf))
                     (combine chunks floats)).
Proof.
  revert vectors floats done.
  induction chunks as [|c chunks IH]; intros vectors floats done; simpl.
  - intros _. now rewrite app_nil_r.
  - destruct vectors as [|v vectors]; simpl.
    + intros H. injection H as <-. simpl. now rewrite app_nil_r.
    + unfold Route.new_ChunkResponse.
      destruct (as_float_list v) as [e|f]; simpl; [discriminate|].
      destruct (Py.for_each as_float_list (firstn (List.length chunks) vectors))
        as [e|fs] eqn:Hrest; simpl; [discriminate|].
      intros H. injection H as <-.
      unfold assemble in IH. rewrite (IH vectors fs _ Hrest).
      simpl. now rewrite <- app_assoc.
Qed.

(** Every record the loop adds carries the metadata it was given. *)
Lemma assemble_metadata (metadata : Route.metadata_t)
    (pairs : list (Chunker.chunk * Py.value))
    (done result : list Route.ChunkResponse) :
  assemble pairs metadata done = inr result ->
  Forall (fun c => Route.metadata c = metadata) done ->
  Forall (fun c => Route.metadata c = metadata) result.
Proof.
  revert done.
  induction pairs as [|[c v] pairs IH]; intros done; simpl.
  - intros H. now injection H as <-.
  - unfold Route.new_ChunkResponse.
    destruct (as_float_list v) as [e|f]; [discriminate|].
    intros H Hdone. apply (IH _ H).
    apply Forall_app. split; [assumption|].
    constructor; [reflexivity | constructor].
Qed.

End HandlerFacts.




(** C4. Whatever exception the splitter or the embedding client raises, the
    handler answers with status 500 and the detail [str(e)]; more generally
    every exception of the [try] block ends that way, and an answer is either
    a complete result or such a failure. *)
Theorem any_exception_is_500 {lib : LlamaIndex.Lib}
    (as_float_list : Py.value -> Py.result (list Py.float))
    (remote : Net.provider) (settings : Config.Settings)
    (request : Route.ChunkRequest) (l : Net.log) :
  let chunked :=
    Chunker.chunk_document settings (Route.req_content request)
      (Route.req_chunk_size request) (Route.req_chunk_overlap request) in
  let answer := Route.create_chunks as_float_list remote settings request l in
  (forall e, chunked = inl e ->
     answer = (Route.Failed {| Route.status_code := 500;
                               Route.detail := Py.str e |}, l))
  /\ (forall chunks e l',
        chunked = inr chunks ->
        Embedder.generate_embeddings remote settings
          (map Chunker.content chunks) l = (inl e, l') ->
        answer = (Route.Failed {| Route.status_code := 500;
                                  Route.detail := Py.str e |}, l'))
  /\ (forall e l',
        Route.create_chunks_body as_float_list remote settings request l
          = (inl e, l') ->
        answer = (Route.Failed {| Route.status_code := 500;
                                  Route.detail := Py.str e |}, l'))
  /\ (forall failure,
        fst answer = Route.Failed failure ->
        Route.status_code failure = 500
        /\ exists e,
             fst (Route.create_chunks_body as_float_list remote settings
                    request l) = inl e
             /\ Route.detail failure = Py.str e).
Proof.
  intros chunked answer. subst chunked answer.
  repeat split.
  - intros e He. rewrite create_chunks_run, He. reflexivity.
  - intros chunks e l' Hchunks He.
    rewrite create_chunks_run, Hchunks.
    destruct chunks as [|c chunks]; [discriminate|].
    rewrite He. reflexivity.
  - intros e l' He. unfold Route.create_chunks. rewrite He. reflexivity.
  - unfold Route.create_chunks in H.
    destruct (Route.create_chunks_body as_float_list remote settings request l)
      as [[e|r] l']; simpl in H; [|discriminate].
    injection H as <-. reflexivity.
  - unfold Route.create_chunks in H.
    destruct (Route.create_chunks_body as_float_list remote settings request l)
      as [[e|r] l']; simpl in H; [|discriminate].
    injection H as <-. exists e. split; reflexivity.
Qed.

Lemma any_exception_is_500_witness :
  Route.create_chunks (lib := Double.by_sentence) Double.as_float_list
    (Double.refusing 401 "denied") Config.defaults
    (Double.request_of Double.three_sentences (Some 10) (Some 20)) []
  = (Route.Failed
       {| Route.status_code := 500;
          Route.detail :=
            "Got a larger chunk overlap than chunk size, should be smaller." |},
     []).
Proof.
  exact (proj1 (any_exception_is_500 (lib := Double.by_sentence)
                  Double.as_float_list (Double.refusing 401 "denied")
                  Config.defaults
                  (Double.request_of Double.three_sentences (Some 10) (Some 20))
                  [])
           _ eq_refl).
Defined.

(** C6. In every successful answer each chunk carries the metadata of the
    request as it was given, the omitted case ([None]) included. *)
Theorem metadata_passes_through {lib : LlamaIndex.Lib}
    (as_float_list : Py.value -> Py.result (list Py.float))
    (remote : Net.provider) (settings : Config.Settings)
    (request : Route.ChunkRequest) (l : Net.log) (r : Route.ChunkResult) :
  fst (Route.create_chunks as_float_list remote settings request l)
    = Route.Returned r ->
  Forall (fun c => Route.metadata c = Route.req_metadata request)
    (Route.chunks r).
Proof.
  rewrite create_chunks_run.
  destruct (Chunker.chunk_document settings (Route.req_content request)
              (Route.req_chunk_size request) (Route.req_chunk_overlap request))
    as [e|[|c chunks]]; cbn [fst].
  - discriminate.
  - intros H. injection H as <-. constructor.
  - destruct (Embedder.generate_embeddings remote settings
                (map Chunker.content (c :: chunks)) l)
      as [[e|embeddings] l']; cbn [fst]; [discriminate|].
    destruct (Route.assemble as_float_list (Py.zip (c :: chunks) embeddings)
                (Route.req_metadata request) []) as [e|result] eqn:Hloop;
      cbn [fst]; [discriminate|].
    intros H. injection H as <-. cbn [Route.chunks].
    apply (assemble_metadata _ _ _ _ _ Hloop). constructor.
Qed.

Lemma metadata_passes_through_witness :
  Forall (fun c => Route.metadata c = Some [("source"%string, Py.Str "manual")])
    [Route.response_of (Some [("source"%string, Py.Str "manual")])
       {| Chunker.content := "Hello."; Chunker.chunk_index := 0 |}
       (Double.vector_of "Hello.")].
Proof.
  apply (metadata_passes_through (lib := Double.by_sentence)
           Double.as_float_list Double.faithful Config.defaults
           (Double.request_of "Hello." None None) []
           {| Route.chunks :=
                [Route.response_of (Some [("source"%string, Py.Str "manual")])
                   {| Chunker.content := "Hello."; Chunker.chunk_index := 0 |}
                   (Double.vector_of "Hello.")];
              Route.total_chunks := 1 |}).
  reflexivity.
Defined.

(** C5, as the program has it.  When the provider answers with a status
    other than 200, [generate_embeddings] raises a plain [Exception] whose
    message is ["OpenRouter embedding failed: "] followed by the text of the
    answer; the request was posted once and is not sent again; the handler
    answers with status 500 and that message as detail. *)
Theorem refusal_surfaces {lib : LlamaIndex.Lib}
    (as_float_list : Py.value -> Py.result (list Py.float))
    (remote : Net.provider) (settings : Config.Settings)
    (request : Route.ChunkRequest) (l : Net.log)
    (chunks : list Chunker.chunk) (response : Net.response) :
  let texts := map Chunker.content chunks in
  let sent := Embedder.embeddings_request settings texts in
  let raised :=
    Py.Exception ("OpenRouter embedding failed: " ++ Net.text response)%string in
  let l' := l ++ [Net.ClientOpened; Net.Posted sent; Net.ClientClosed] in
  Chunker.chunk_document settings (Route.req_content request)
    (Route.req_chunk_size request) (Route.req_chunk_overlap request)
    = inr chunks ->
  chunks <> [] ->
  remote (l ++ [Net.ClientOpened]) sent = inr response ->
  Net.status_code response <> 200 ->
  Embedder.generate_embeddings remote settings texts l = (inl raised, l')
  /\ Py.class_name raised = "Exception"%string
  /\ Net.posts l' = Net.posts l ++ [sent]
  /\ Route.create_chunks as_float_list remote settings request l
     = (Route.Failed
          {| Route.status_code := 500;
             Route.detail :=
               ("OpenRouter embedding failed: " ++ Net.text response)%string |},
        l').
Proof.
  intros texts sent raised l' Hchunks Hne Hanswer Hstatus.
  assert (Htexts : texts <> []).
  { subst texts. destruct chunks; [contradiction | discriminate]. }
  assert (Hrun : Embedder.generate_embeddings remote settings texts l
                 = (inl raised, l')).
  { rewrite (generate_embeddings_run remote settings texts l Htexts).
    fold sent. rewrite Hanswer.
    destruct (Z.eqb_spec (Net.status_code response) 200); [contradiction|].
    reflexivity. }
  repeat split.
  - exact Hrun.
  - subst l'. rewrite posts_app. reflexivity.
  - rewrite create_chunks_run, Hchunks.
    destruct chunks as [|c chunks]; [contradiction|].
    fold texts. rewrite Hrun. reflexivity.
Qed.

Lemma refusal_surfaces_witness :
  Route.create_chunks (lib := Double.by_sentence) Double.as_float_list
    (Double.refusing 401 "No auth credentials found") Config.defaults
    (Double.request_of "Hello." None None) []
  = (Route.Failed
       {| Route.status_code := 500;
          Route.detail :=
            "OpenRouter embedding failed: No auth credentials found" |},
     [Net.ClientOpened;
      Net.Posted (Embedder.embeddings_request Config.defaults ["Hello."%string]);
      Net.ClientClosed]).
Proof.
  apply (refusal_surfaces (lib := Double.by_sentence) Double.as_float_list
           (Double.refusing 401 "No auth credentials found") Config.defaults
           (Double.request_of "Hello." None None) []
           [{| Chunker.content := "Hello."; Chunker.chunk_index := 0 |}]
           {| Net.status_code := 401;
              Net.text := "No auth credentials found";
              Net.decoded := inl (Py.Raised "JSONDecodeError"
                                    "Expecting value: line 1 column 1 (char 0)") |}).
  - reflexivity.
  - discriminate.
  - reflexivity.
  - simpl. lia.
Defined.

(** C5, as the specification words it, does not hold: the exception raised
    on a status 401 is a plain [Exception], not an [ExternalProviderError],
    and nothing in it tells the status: a 403 with the same text raises the
    very same exception. *)
Lemma refusal_forgets_status :
  let run status :=
    fst (Embedder.generate_embeddings
           (Double.refusing status "No auth credentials found")
           Config.defaults ["Hello."%string] []) in
  run 401 = inl (Py.Exception
                   "OpenRouter embedding failed: No auth credentials found")
  /\ Py.class_name
       (Py.Exception "OpenRouter embedding failed: No auth credentials found")
     <> "ExternalProviderError"%string
  /\ run 403 = run 401.
Proof.
  repeat split. discriminate.
Qed.

(** C1, as the program has it.  On a status 200 [generate_embeddings]
    returns the vectors of the answer as they are listed, as many as the
    answer lists; the handler pairs chunks and vectors by position up to the
    end of the shorter list, and does not compare the two lengths.  When the
    answer lists one vector per text, the two lists have the same length and
    chunk [i] is returned with vector [i]. *)
Theorem embeddings_follow_provider {lib : LlamaIndex.Lib}
    (as_float_list : Py.value -> Py.result (list Py.float))
    (remote : Net.provider) (settings : Config.Settings)
    (request : Route.ChunkRequest) (l : Net.log)
    (chunks : list Chunker.chunk) (response : Net.response)
    (vectors : list Py.value) (floats : list (list Py.float)) :
  let texts := map Chunker.content chunks in
  let sent := Embedder.embeddings_request settings texts in
  let l' := l ++ [Net.ClientOpened; Net.Posted sent; Net.ClientClosed] in
  let result :=
    map (fun cf => Route.response_of (Route.req_metadata request)
                     (fst cf) (snd cf))
      (combine chunks floats) in
  Chunker.chunk_document settings (Route.req_content request)
    (Route.req_chunk_size request) (Route.req_chunk_overlap request)
    = inr chunks ->
  chunks <> [] ->
  remote (l ++ [Net.ClientOpened]) sent = inr response ->
  Net.status_code response = 200 ->
  Embedder.embeddings_of response = inr vectors ->
  Py.for_each as_float_list (firstn (List.length chunks) vectors) = inr floats ->
  Embedder.generate_embeddings remote settings texts l = (inr vectors, l')
  /\ Route.create_chunks as_float_list remote settings request l
     = (Route.Returned
          {| Route.chunks := result;
             Route.total_chunks := Z.of_nat (List.length result) |}, l')
  /\ List.length result
     = Nat.min (List.length chunks) (List.length vectors)
  /\ (List.length vectors = List.length texts ->
      map Route.content result = texts
      /\ map Route.embedding result = floats
      /\ map Route.chunk_index result = map Chunker.chunk_index chunks).
Proof.
  intros texts sent l' result Hchunks Hne Hanswer Hstatus Hvectors Hfloats.
  assert (Htexts : texts <> []).
  { subst texts. destruct chunks; [contradiction | discriminate]. }
  assert (Hrun : Embedder.generate_embeddings remote settings texts l
                 = (inr vectors, l')).
  { rewrite (generate_embeddings_run remote settings texts l Htexts).
    fold sent. rewrite Hanswer, Hstatus, Hvectors. reflexivity. }
  assert (Hlen : List.length floats
                 = Nat.min (List.length chunks) (List.length vectors)).
  { rewrite (for_each_length _ _ _ Hfloats). apply length_firstn. }
  split; [exact Hrun|]. split; [|split].
  - rewrite create_chunks_run, Hchunks.
    destruct chunks as [|c chunks]; [contradiction|].
    fold texts. rewrite Hrun.
    rewrite (assemble_positions as_float_list (Route.req_metadata request)
               (c :: chunks) vectors floats [] Hfloats).
    reflexivity.
  - subst result. rewrite length_map, length_combine, Hlen. lia.
  - intros Hsame. subst texts. rewrite length_map in Hsame.
    assert (Heq : List.length chunks = List.length floats) by lia.
    subst result. rewrite !map_map. simpl.
    clear - Heq. revert floats Heq.
    induction chunks as [|c chunks IH]; intros [|f floats] Heq;
      simpl in *; try discriminate; auto.
    injection Heq as Heq. destruct (IH floats Heq) as (H1 & H2 & H3).
    now rewrite H1, H2, H3.
Qed.

Lemma embeddings_follow_provider_witness :
  Route.create_chunks (lib := Double.by_sentence) Double.as_float_list
    Double.faithful Config.defaults
    (Double.request_of "One. Two." None None) []
  = (Route.Returned
       {| Route.chunks :=
            [Route.response_of (Some [("source"%string, Py.Str "manual")])
               {| Chunker.content := "One."; Chunker.chunk_index := 0 |}
               [Double.one; Double.zero];
             Route.response_of (Some [("source"%string, Py.Str "manual")])
               {| Chunker.content := " Two."; Chunker.chunk_index := 1 |}
               [Double.one; Double.one]];
          Route.total_chunks := 2 |},
     [Net.ClientOpened;
      Net.Posted (Embedder.embeddings_request Config.defaults
                    ["One."%string; " Two."%string]);
      Net.ClientClosed]).
Proof.
  apply (embeddings_follow_provider (lib := Double.by_sentence)
           Double.as_float_list Double.faithful Config.defaults
           (Double.request_of "One. Two." None None) []
           [{| Chunker.content := "One."; Chunker.chunk_index := 0 |};
            {| Chunker.content := " Two."; Chunker.chunk_index := 1 |}]
           (Double.ok [[Double.one; Double.zero]; [Double.one; Double.one]])
           [Py.List [Py.Float Double.one; Py.Float Double.zero];
            Py.List [Py.Float Double.one; Py.Float Double.one]]
           [[Double.one; Double.zero]; [Double.one; Double.one]]).
  - reflexivity.
  - discriminate.
  - reflexivity.
  - reflexivity.
  - reflexivity.
  - reflexivity.
Defined.

(** C1, as the specification words it, does not hold: a provider that
    answers three texts with one vector makes [generate_embeddings] return a
    list of length one, and the handler then answers with success and the
    first chunk alone. *)
Lemma short_answer_truncates :
  let request := Double.request_of Double.three_sentences (Some 20) (Some 5) in
  let texts := ["Sentence one."; " Sentence two."; " Sentence three."]%string in
  Chunker.chunk_document (lib := Double.by_sentence) Config.defaults
    Double.three_sentences (Some 20) (Some 5)
  = inr [{| Chunker.content := "Sentence one."; Chunker.chunk_index := 0 |};
         {| Chunker.content := " Sentence two."; Chunker.chunk_index := 1 |};
         {| Chunker.content := " Sentence three."; Chunker.chunk_index := 2 |}]
  /\ fst (Embedder.generate_embeddings Double.stingy Config.defaults texts [])
     = inr [Py.List [Py.Float Double.one; Py.Float Double.zero]]
  /\ List.length [Py.List [Py.Float Double.one; Py.Float Double.zero]]
     <> List.length texts
  /\ fst (Route.create_chunks (lib := Double.by_sentence) Double.as_float_list
            Double.stingy Config.defaults request [])
     = Route.Returned
         {| Route.chunks :=
              [Route.response_of (Some [("source"%string, Py.Str "manual")])
                 {| Chunker.content := "Sentence one."; Chunker.chunk_index := 0 |}
                 [Double.one; Double.zero]];
            Route.total_chunks := 1 |}.
Proof.
  cbv zeta. repeat split. discriminate.
Qed.

(** ** Runs that do not depend on what was sent before *)






(** * Further properties of the code *)

(** ** [chunk_document] and the library *)

(** X1. One chunk per node of the library, with the text of the node and in the
    order of the nodes: nothing is dropped, merged or reordered. *)
Theorem chunks_mirror_nodes {lib : LlamaIndex.Lib} (settings : Config.Settings)
    (content : string) (chunk_size chunk_overlap : option Z)
    (s : LlamaIndex.splitter) (nodes : list LlamaIndex.node) :
  LlamaIndex.SentenceSplitter
    (fst (Chunker.splitter_args settings chunk_size chunk_overlap))
    (snd (Chunker.splitter_args settings chunk_size chunk_overlap)) = inr s ->
  LlamaIndex.get_nodes_from_documents s
    [{| LlamaIndex.doc_text := content |}] = inr nodes ->
  exists chunks,
    Chunker.chunk_document settings content chunk_size chunk_overlap = inr chunks
    /\ List.length chunks = List.length nodes
    /\ map Chunker.content chunks = map LlamaIndex.get_content nodes
    /\ forall i node,
         nth_error nodes i = Some node ->
         nth_error chunks i
         = Some {| Chunker.content := LlamaIndex.get_content node;
                   Chunker.chunk_index := Z.of_nat i |}.
Proof.
  intros Hs Hnodes.
  exists (Chunker.to_chunks nodes).
  rewrite chunk_document_unfold, Hs, Hnodes.
  split; [reflexivity|].
  split; [apply to_chunks_length|].
  split; [apply to_chunks_contents|].
  intros i node Hi.
  rewrite to_chunks_map. unfold Py.enumerate.
  assert (Hgen : forall (l : list LlamaIndex.node) start k,
             nth_error l k = Some node ->
             nth_error (map Chunker.chunk_of (Py.enumerate_from start l)) k
             = Some {| Chunker.content := LlamaIndex.get_content node;
                       Chunker.chunk_index := start + Z.of_nat k |}).
  { induction l as [|x l IH]; intros start k Hk.
    - destruct k; discriminate.
    - destruct k as [|k]; simpl in *.
      + injection Hk as ->. unfold Chunker.chunk_of. simpl.
        now rewrite Z.add_0_r.
      + rewrite (IH (start + 1) k Hk). do 2 f_equal. lia. }
  exact (Hgen nodes 0 i Hi).
Qed.

Lemma chunks_mirror_nodes_witness :
  exists chunks,
    Chunker.chunk_document (lib := Double.by_sentence) Config.defaults
      "One. Two." None None = inr chunks
    /\ List.length chunks = 2%nat
    /\ map Chunker.content chunks = ["One."; " Two."]%string
    /\ forall i node,
         nth_error ["One."; " Two."]%string i = Some node ->
         nth_error chunks i
         = Some {| Chunker.content := node; Chunker.chunk_index := Z.of_nat i |}.
Proof.
  apply (chunks_mirror_nodes (lib := Double.by_sentence) Config.defaults
           "One. Two." None None tt ["One."; " Two."]%string).
  - reflexivity.
  - reflexivity.
Defined.

(** X2. [chunk_document] has no failure of its own: it raises exactly when the
    library does, with the exception of the library, be it at the
    construction of the splitter or at the splitting. *)
Theorem chunk_document_raises_what_library_raises {lib : LlamaIndex.Lib}
    (settings : Config.Settings) (content : string)
    (chunk_size chunk_overlap : option Z) (e : Py.exn) :
  let args := Chunker.splitter_args settings chunk_size chunk_overlap in
  Chunker.chunk_document settings content chunk_size chunk_overlap = inl e
  <-> (LlamaIndex.SentenceSplitter (fst args) (snd args) = inl e
       \/ exists s,
            LlamaIndex.SentenceSplitter (fst args) (snd args) = inr s
            /\ LlamaIndex.get_nodes_from_documents s
                 [{| LlamaIndex.doc_text := content |}] = inl e).
Proof.
  intros args. subst args.
  rewrite chunk_document_unfold.
  destruct (LlamaIndex.SentenceSplitter
              (fst (Chunker.splitter_args settings chunk_size chunk_overlap))
              (snd (Chunker.splitter_args settings chunk_size chunk_overlap)))
    as [e'|s].
  - split.
    + intros H. injection H as ->. now left.
    + intros [H|[s [H _]]]; [|discriminate].
      injection H as ->. reflexivity.
  - destruct (LlamaIndex.get_nodes_from_documents s
                [{| LlamaIndex.doc_text := content |}]) as [e'|nodes] eqn:Hn.
    + split.
      * intros H. injection H as ->. right. exists s.
        split; [reflexivity | assumption].
      * intros [H|[s' [Hs' H]]]; [discriminate|].
        injection Hs' as <-. rewrite Hn in H.
        injection H as ->. reflexivity.
    + split.
      * discriminate.
      * intros [H|[s' [Hs' H]]]; [discriminate|].
        injection Hs' as <-. rewrite Hn in H. discriminate.
Qed.

Lemma chunk_document_raises_what_library_raises_witness :
  Chunker.chunk_document (lib := Double.by_sentence) Config.defaults
    "One. Two." (Some 10) (Some 20)
  = inl (Py.Raised "ValueError"
           "Got a larger chunk overlap than chunk size, should be smaller.").
Proof.
  apply (chunk_document_raises_what_library_raises (lib := Double.by_sentence)
           Config.defaults "One. Two." (Some 10) (Some 20)).
  left. reflexivity.
Defined.

(** X3. Settling the two sizes is idempotent: a caller who sends back the sizes
    the splitter was handed gets the same chunks. *)
Theorem settled_sizes_can_be_sent_back {lib : LlamaIndex.Lib}
    (settings : Config.Settings) (content : string)
    (chunk_size chunk_overlap : option Z) :
  let args := Chunker.splitter_args settings chunk_size chunk_overlap in
  Chunker.splitter_args settings (Some (fst args)) (Some (snd args)) = args
  /\ Chunker.chunk_document settings content (Some (fst args)) (Some (snd args))
     = Chunker.chunk_document settings content chunk_size chunk_overlap.
Proof.
  intros args.
  assert (Hidem : forall x d,
             Py.or_default (Some (Py.or_default x d)) d = Py.or_default x d).
  { intros [z|] d; simpl.
    - destruct (Z.eqb_spec z 0) as [->|Hz].
      + destruct (Z.eqb_spec d 0); reflexivity.
      + destruct (Z.eqb_spec z 0); [contradiction | reflexivity].
    - destruct (Z.eqb_spec d 0); reflexivity. }
  assert (Hargs : Chunker.splitter_args settings (Some (fst args))
                    (Some (snd args)) = args).
  { subst args. unfold Chunker.splitter_args. cbn [fst snd].
    now rewrite !Hidem. }
  split; [exact Hargs|].
  rewrite !chunk_document_unfold. now rewrite Hargs.
Qed.

(** ** [generate_embeddings] and the provider *)

Lemma for_each_Forall2 {A B : Type} (f : A -> Py.result B) (xs : list A)
    (ys : list B) :
  Py.for_each f xs = inr ys <-> Forall2 (fun x y => f x = inr y) xs ys.
Proof.
  revert ys.
  induction xs as [|x xs IH]; intros ys; simpl.
  - split.
    + intros H. injection H as <-. constructor.
    + intros H. inversion H. reflexivity.
  - split.
    + destruct (f x) as [e|y] eqn:Hx; simpl; [discriminate|].
      destruct (Py.for_each f xs) as [e|ys'] eqn:Hxs; simpl; [discriminate|].
      intros H. injection H as <-.
      constructor; [assumption | now apply IH].
    + intros H. inversion H as [|x' y xs' ys' Hx Hrest]; subst.
      rewrite Hx. simpl.
      apply IH in Hrest. rewrite Hrest. reflexivity.
Qed.

Lemma for_each_first_failure {A B : Type} (f : A -> Py.result B)
    (good : list A) (bad : A) (rest : list A) (e : Py.exn) :
  Forall (fun x => exists y, f x = inr y) good ->
  f bad = inl e ->
  Py.for_each f (good ++ bad :: rest) = inl e.
Proof.
  intros Hgood Hbad.
  induction Hgood as [|x good [y Hx] _ IH]; simpl.
  - now rewrite Hbad.
  - now rewrite Hx, IH.
Qed.

(** X4. Whatever the provider does (it answers, refuses, sends something that
    is not JSON, or the transport fails), a call on a list that is not empty
    opens one client, posts one request and closes the client. *)
Theorem one_round_trip_client_closed (remote : Net.provider)
    (settings : Config.Settings) (texts : list string) (l : Net.log) :
  texts <> [] ->
  let sent := Embedder.embeddings_request settings texts in
  let l' := snd (Embedder.generate_embeddings remote settings texts l) in
  l' = l ++ [Net.ClientOpened; Net.Posted sent; Net.ClientClosed]
  /\ Net.posts l' = Net.posts l ++ [sent]
  /\ Net.input (Net.json sent) = texts.
Proof.
  intros Htexts sent l'. subst l'.
  rewrite (generate_embeddings_run remote settings texts l Htexts).
  cbn [snd]. split; [reflexivity|]. split; [|reflexivity].
  rewrite posts_app. reflexivity.
Qed.

Lemma one_round_trip_client_closed_witness :
  snd (Embedder.generate_embeddings (Double.refusing 503 "busy")
         Config.defaults ["a"; "b"]%string [])
  = [Net.ClientOpened;
     Net.Posted (Embedder.embeddings_request Config.defaults ["a"; "b"]%string);
     Net.ClientClosed].
Proof.
  apply (one_round_trip_client_closed (Double.refusing 503 "busy")
           Config.defaults ["a"; "b"]%string []).
  discriminate.
Defined.

(** X5. A failure of the transport (a timeout, a refused connection) leaves
    [generate_embeddings] as it was raised, after the client is closed, and
    the handler answers it with status 500 and its message. *)
Theorem transport_failure_surfaces {lib : LlamaIndex.Lib}
    (as_float_list : Py.value -> Py.result (list Py.float))
    (remote : Net.provider) (settings : Config.Settings)
    (request : Route.ChunkRequest) (l : Net.log)
    (chunks : list Chunker.chunk) (e : Py.exn) :
  let texts := map Chunker.content chunks in
  let sent := Embedder.embeddings_request settings texts in
  let l' := l ++ [Net.ClientOpened; Net.Posted sent; Net.ClientClosed] in
  Chunker.chunk_document settings (Route.req_content request)
    (Route.req_chunk_size request) (Route.req_chunk_overlap request)
    = inr chunks ->
  chunks <> [] ->
  remote (l ++ [Net.ClientOpened]) sent = inl e ->
  Embedder.generate_embeddings remote settings texts l = (inl e, l')
  /\ Route.create_chunks as_float_list remote settings request l
     = (Route.Failed {| Route.status_code := 500;
                        Route.detail := Py.str e |}, l').
Proof.
  intros texts sent l' Hchunks Hne Hanswer.
  assert (Htexts : texts <> []).
  { subst texts. destruct chunks; [contradiction | discriminate]. }
  assert (Hrun : Embedder.generate_embeddings remote settings texts l
                 = (inl e, l')).
  { rewrite (generate_embeddings_run remote settings texts l Htexts).
    fold sent. now rewrite Hanswer. }
  split; [exact Hrun|].
  rewrite create_chunks_run, Hchunks.
  destruct chunks as [|c chunks]; [contradiction|].
  fold texts. rewrite Hrun. reflexivity.
Qed.

Lemma transport_failure_surfaces_witness :
  Route.create_chunks (lib := Double.by_sentence) Double.as_float_list
    (fun _ _ => inl (Py.Raised "ReadTimeout" "timed out")) Config.defaults
    (Double.request_of "Hello." None None) []
  = (Route.Failed {| Route.status_code := 500; Route.detail := "timed out" |},
     [Net.ClientOpened;
      Net.Posted (Embedder.embeddings_request Config.defaults ["Hello."%string]);
      Net.ClientClosed]).
Proof.
  apply (transport_failure_surfaces (lib := Double.by_sentence)
           Double.as_float_list
           (fun _ _ => inl (Py.Raised "ReadTimeout" "timed out"))
           Config.defaults (Double.request_of "Hello." None None) []
           [{| Chunker.content := "Hello."; Chunker.chunk_index := 0 |}]
           (Py.Raised "ReadTimeout" "timed out")).
  - reflexivity.
  - discriminate.
  - reflexivity.
Defined.

(** X6. For a JSON answer whose ["data"] is a list, the vectors returned are the
    ["embedding"] fields of its items, one per item and in their order, and
    there is a result only if every item has the field. *)
Theorem embeddings_are_the_items_fields (response : Net.response)
    (data : Py.value) (items vectors : list Py.value) :
  Net.decoded response = inr data ->
  Py.getitem data "data" = inr (Py.List items) ->
  (Embedder.embeddings_of response = inr vectors
   <-> Forall2 (fun item v => Py.getitem item "embedding" = inr v)
         items vectors).
Proof.
  intros Hdata Hitems.
  unfold Embedder.embeddings_of. rewrite Hdata. simpl.
  rewrite Hitems. simpl.
  apply for_each_Forall2.
Qed.

Lemma embeddings_are_the_items_fields_witness :
  Forall2 (fun item v => Py.getitem item "embedding" = inr v)
    [Double.item_of [Double.one]; Double.item_of [Double.zero]]
    [Py.List [Py.Float Double.one]; Py.List [Py.Float Double.zero]].
Proof.
  apply (embeddings_are_the_items_fields
           (Double.ok [[Double.one]; [Double.zero]])
           (Double.payload [[Double.one]; [Double.zero]])
           [Double.item_of [Double.one]; Double.item_of [Double.zero]]
           [Py.List [Py.Float Double.one]; Py.List [Py.Float Double.zero]]).
  - reflexivity.
  - reflexivity.
  - reflexivity.
Defined.

(** X7. The first item without an ["embedding"] field makes the whole decoding
    fail with the error of that lookup: the vectors of the items before it
    are not returned. *)
Theorem item_without_embedding_fails_all (response : Net.response)
    (data : Py.value) (good : list Py.value) (bad : Py.value)
    (rest : list Py.value) (e : Py.exn) :
  Net.decoded response = inr data ->
  Py.getitem data "data" = inr (Py.List (good ++ bad :: rest)) ->
  Forall (fun item => exists v, Py.getitem item "embedding" = inr v) good ->
  Py.getitem bad "embedding" = inl e ->
  Embedder.embeddings_of response = inl e.
Proof.
  intros Hdata Hitems Hgood Hbad.
  unfold Embedder.embeddings_of. rewrite Hdata. simpl.
  rewrite Hitems. simpl.
  now apply for_each_first_failure.
Qed.

Lemma item_without_embedding_fails_all_witness :
  Embedder.embeddings_of
    {| Net.status_code := 200;
       Net.text := "";
       Net.decoded :=
         inr (Py.Dict [("data"%string,
                        Py.List [Double.item_of [Double.one];
                                 Py.Dict [("index"%string, Py.Int 1)]])]) |}
  = inl (Py.KeyError "embedding").
Proof.
  apply (item_without_embedding_fails_all _
           (Py.Dict [("data"%string,
                      Py.List [Double.item_of [Double.one];
                               Py.Dict [("index"%string, Py.Int 1)]])])
           [Double.item_of [Double.one]]
           (Py.Dict [("index"%string, Py.Int 1)]) []).
  - reflexivity.
  - reflexivity.
  - constructor; [|constructor].
    exists (Py.List [Py.Float Double.one]). reflexivity.
  - reflexivity.
Defined.

(** X8. A status 200 whose JSON object has no ["data"] key ends the request
    with status 500 and the detail ['data'], the quoted key. *)
Theorem missing_data_key_is_500 {lib : LlamaIndex.Lib}
    (as_float_list : Py.value -> Py.result (list Py.float))
    (remote : Net.provider) (settings : Config.Settings)
    (request : Route.ChunkRequest) (l : Net.log)
    (chunks : list Chunker.chunk) (response : Net.response)
    (d : list (string * Py.value)) :
  let texts := map Chunker.content chunks in
  let sent := Embedder.embeddings_request settings texts in
  let l' := l ++ [Net.ClientOpened; Net.Posted sent; Net.ClientClosed] in
  Chunker.chunk_document settings (Route.req_content request)
    (Route.req_chunk_size request) (Route.req_chunk_overlap request)
    = inr chunks ->
  chunks <> [] ->
  remote (l ++ [Net.ClientOpened]) sent = inr response ->
  Net.status_code response = 200 ->
  Net.decoded response = inr (Py.Dict d) ->
  Py.dict_get d "data" = None ->
  Route.create_chunks as_float_list remote settings request l
  = (Route.Failed {| Route.status_code := 500; Route.detail := "'data'" |}, l').
Proof.
  intros texts sent l' Hchunks Hne Hanswer Hstatus Hdecoded Hkey.
  assert (Htexts : texts <> []).
  { subst texts. destruct chunks; [contradiction | discriminate]. }
  rewrite create_chunks_run, Hchunks.
  destruct chunks as [|c chunks]; [contradiction|].
  fold texts.
  rewrite (generate_embeddings_run remote settings texts l Htexts).
  fold sent. rewrite Hanswer, Hstatus. cbn [Z.eqb Pos.eqb].
  unfold Embedder.embeddings_of. rewrite Hdecoded. simpl.
  rewrite Hkey. reflexivity.
Qed.

Lemma missing_data_key_is_500_witness :
  Route.create_chunks (lib := Double.by_sentence) Double.as_float_list
    (fun _ _ =>
       inr {| Net.status_code := 200;
              Net.text := "";
              Net.decoded := inr (Py.Dict [("error"%string, Py.Str "quota")]) |})
    Config.defaults (Double.request_of "Hello." None None) []
  = (Route.Failed {| Route.status_code := 500; Route.detail := "'data'" |},
     [Net.ClientOpened;
      Net.Posted (Embedder.embeddings_request Config.defaults ["Hello."%string]);
      Net.ClientClosed]).
Proof.
  apply (missing_data_key_is_500 (lib := Double.by_sentence)
           Double.as_float_list _ Config.defaults
           (Double.request_of "Hello." None None) []
           [{| Chunker.content := "Hello."; Chunker.chunk_index := 0 |}]
           {| Net.status_code := 200;
              Net.text := "";
              Net.decoded := inr (Py.Dict [("error"%string, Py.Str "quota")]) |}
           [("error"%string, Py.Str "quota")]).
  - reflexivity.
  - discriminate.
  - reflexivity.
  - reflexivity.
  - reflexivity.
  - reflexivity.
Defined.

(** ** What the handler returns and what it sends *)

Lemma firstn_seq_min (k start n : nat) :
  firstn k (seq start n) = seq start (Nat.min k n).
Proof.
  revert start n.
  induction k as [|k IH]; intros start [|n]; simpl; try reflexivity.
  now rewrite IH.
Qed.

Lemma combine_fst_prefix {A B : Type} (xs : list A) (ys : list B) :
  map fst (combine xs ys) = firstn (List.length (combine xs ys)) xs.
Proof.
  revert ys.
  induction xs as [|x xs IH]; intros [|y ys]; simpl; try reflexivity.
  now rewrite IH.
Qed.

(** The loop over [zip(chunks, embeddings)], success and failure alike: the
    vectors at the positions of the chunks are validated in order, the first
    failure ends the loop, and each validated vector joins the chunk at its
    position. *)
Lemma assemble_zip (as_float_list : Py.value -> Py.result (list Py.float))
    (metadata : Route.metadata_t) (chunks : list Chunker.chunk)
    (vectors : list Py.value) (done : list Route.ChunkResponse) :
  Route.assemble as_float_list (Py.zip chunks vectors) metadata done
  = match Py.for_each as_float_list (firstn (List.length chunks) vectors) with
    | inl e => inl e
    | inr floats =>
        inr (done ++ map (fun cf => Route.response_of metadata (fst cf) (snd cf))
                         (combine chunks floats))
    end.
Proof.
  revert vectors done.
  induction chunks as [|c chunks IH]; intros vectors done; simpl.
  - now rewrite app_nil_r.
  - destruct vectors as [|v vectors]; simpl.
    + now rewrite app_nil_r.
    + unfold Route.new_ChunkResponse.
      destruct (as_float_list v) as [e|f]; simpl; [reflexivity|].
      rewrite IH.
      destruct (Py.for_each as_float_list (firstn (List.length chunks) vectors))
        as [e|fs]; simpl; [reflexivity|].
      now rewrite <- app_assoc.
Qed.

Lemma chunk_document_numbered {lib : LlamaIndex.Lib}
    (settings : Config.Settings) (content : string)
    (chunk_size chunk_overlap : option Z) (chunks : list Chunker.chunk) :
  Chunker.chunk_document settings content chunk_size chunk_overlap = inr chunks ->
  map Chunker.chunk_index chunks = map Z.of_nat (seq 0 (List.length chunks)).
Proof.
  rewrite chunk_document_unfold.
  destruct (LlamaIndex.SentenceSplitter _ _) as [e|s]; [discriminate|].
  destruct (LlamaIndex.get_nodes_from_documents s _) as [e|nodes];
    [discriminate|].
  intros H. injection H as <-.
  rewrite to_chunks_length. apply to_chunks_indices.
Qed.

Lemma assembled_prefix (as_float_list : Py.value -> Py.result (list Py.float))
    (metadata : Route.metadata_t) (chunks : list Chunker.chunk)
    (vectors : list Py.value) (result : list Route.ChunkResponse) :
  Route.assemble as_float_list (Py.zip chunks vectors) metadata [] = inr result ->
  map Chunker.chunk_index chunks = map Z.of_nat (seq 0 (List.length chunks)) ->
  (List.length result <= List.length chunks)%nat
  /\ map Route.chunk_index result = map Z.of_nat (seq 0 (List.length result))
  /\ map Route.content result
     = firstn (List.length result) (map Chunker.content chunks).
Proof.
  rewrite assemble_zip.
  destruct (Py.for_each as_float_list (firstn (List.length chunks) vectors))
    as [e|floats]; [discriminate|].
  intros H Hnum. injection H as <-.
  cbn [app]. rewrite length_map.
  set (k := List.length (combine chunks floats)).
  assert (Hk : (k <= List.length chunks)%nat).
  { subst k. rewrite length_combine. lia. }
  split; [exact Hk|]. split.
  - rewrite map_map. cbn [Route.response_of Route.chunk_index].
    rewrite <- (map_map fst Chunker.chunk_index), combine_fst_prefix.
    fold k. rewrite <- firstn_map, Hnum, firstn_map, firstn_seq_min.
    now rewrite Nat.min_l.
  - rewrite map_map. cbn [Route.response_of Route.content].
    rewrite <- (map_map fst Chunker.content), combine_fst_prefix.
    fold k. now rewrite firstn_map.
Qed.

(** X9. Every successful answer is a prefix of what the splitter produced:
    [total_chunks] is the number of chunks returned, they are numbered
    0, 1, ... without a gap, and their texts are the first texts of the
    splitter, in its order. *)
Theorem answer_is_prefix_of_chunks {lib : LlamaIndex.Lib}
    (as_float_list : Py.value -> Py.result (list Py.float))
    (remote : Net.provider) (settings : Config.Settings)
    (request : Route.ChunkRequest) (l : Net.log) (r : Route.ChunkResult) :
  fst (Route.create_chunks as_float_list remote settings request l)
    = Route.Returned r ->
  let k := List.length (Route.chunks r) in
  Route.total_chunks r = Z.of_nat k
  /\ map Route.chunk_index (Route.chunks r) = map Z.of_nat (seq 0 k)
  /\ exists chunks,
       Chunker.chunk_document settings (Route.req_content request)
         (Route.req_chunk_size request) (Route.req_chunk_overlap request)
         = inr chunks
       /\ (k <= List.length chunks)%nat
       /\ map Route.content (Route.chunks r)
          = firstn k (map Chunker.content chunks).
Proof.
  rewrite create_chunks_run.
  destruct (Chunker.chunk_document settings (Route.req_content request)
              (Route.req_chunk_size request) (Route.req_chunk_overlap request))
    as [e|chunks] eqn:Hchunks; [discriminate|].
  pose proof (chunk_document_numbered _ _ _ _ _ Hchunks) as Hnum.
  destruct chunks as [|c chunks].
  - cbn [fst]. intros H. injection H as <-. cbn.
    split; [reflexivity|]. split; [reflexivity|].
    exists []. repeat split. lia.
  - destruct (Embedder.generate_embeddings remote settings
                (map Chunker.content (c :: chunks)) l)
      as [[e|vectors] l']; cbn [fst]; [discriminate|].
    destruct (Route.assemble as_float_list (Py.zip (c :: chunks) vectors)
                (Route.req_metadata request) []) as [e|result] eqn:Hloop;
      cbn [fst]; [discriminate|].
    intros H. injection H as <-.
    cbn [Route.chunks Route.total_chunks].
    destruct (assembled_prefix _ _ _ _ _ Hloop Hnum) as (Hk & Hidx & Htxt).
    split; [reflexivity|]. split; [exact Hidx|].
    exists (c :: chunks). split; [reflexivity|]. split; assumption.
Qed.

Lemma answer_is_prefix_of_chunks_witness :
  exists chunks,
    Chunker.chunk_document (lib := Double.by_sentence) Config.defaults
      Double.three_sentences (Some 20) (Some 5) = inr chunks
    /\ (1 <= List.length chunks)%nat
    /\ ["Sentence one."%string] = firstn 1 (map Chunker.content chunks).
Proof.
  apply (answer_is_prefix_of_chunks (lib := Double.by_sentence)
           Double.as_float_list Double.stingy Config.defaults
           (Double.request_of Double.three_sentences (Some 20) (Some 5)) []
           {| Route.chunks :=
                [Route.response_of (Some [("source"%string, Py.Str "manual")])
                   {| Chunker.content := "Sentence one.";
                      Chunker.chunk_index := 0 |}
                   [Double.one; Double.zero]];
              Route.total_chunks := 1 |}).
  reflexivity.
Defined.

(** X10. A request is answered with at most one call to the provider.  Nothing
    is sent when the splitter raises or finds no chunk; otherwise one request
    carries the texts of all the chunks, in their order, and the client is
    closed whatever comes back.  What was logged before is kept. *)
Theorem one_post_per_request {lib : LlamaIndex.Lib}
    (as_float_list : Py.value -> Py.result (list Py.float))
    (remote : Net.provider) (settings : Config.Settings)
    (request : Route.ChunkRequest) (l : Net.log) :
  let l' := snd (Route.create_chunks as_float_list remote settings request l) in
  l' = match Chunker.chunk_document settings (Route.req_content request)
               (Route.req_chunk_size request)
               (Route.req_chunk_overlap request) with
       | inr (c :: chunks) =>
           l ++ [Net.ClientOpened;
                 Net.Posted (Embedder.embeddings_request settings
                               (map Chunker.content (c :: chunks)));
                 Net.ClientClosed]
       | _ => l
       end
  /\ (List.length (Net.posts l') <= List.length (Net.posts l) + 1)%nat.
Proof.
  intros l'.
  assert (Hlog : l' = match Chunker.chunk_document settings
                              (Route.req_content request)
                              (Route.req_chunk_size request)
                              (Route.req_chunk_overlap request) with
                      | inr (c :: chunks) =>
                          l ++ [Net.ClientOpened;
                                Net.Posted (Embedder.embeddings_request settings
                                              (map Chunker.content (c :: chunks)));
                                Net.ClientClosed]
                      | _ => l
                      end).
  { subst l'. rewrite create_chunks_run.
    destruct (Chunker.chunk_document settings (Route.req_content request)
                (Route.req_chunk_size request) (Route.req_chunk_overlap request))
      as [e|[|c chunks]]; try reflexivity.
    rewrite (generate_embeddings_run remote settings
               (map Chunker.content (c :: chunks)) l) by discriminate.
    destruct (remote (l ++ [Net.ClientOpened])
                (Embedder.embeddings_request settings
                   (map Chunker.content (c :: chunks)))) as [e|response].
    - reflexivity.
    - destruct (Net.status_code response =? 200); [|reflexivity].
      destruct (Embedder.embeddings_of response) as [e|vectors];
        [reflexivity|].
      destruct (Route.assemble as_float_list (Py.zip (c :: chunks) vectors)
                  (Route.req_metadata request) []); reflexivity. }
  split; [exact Hlog|].
  rewrite Hlog.
  destruct (Chunker.chunk_document settings (Route.req_content request)
              (Route.req_chunk_size request) (Route.req_chunk_overlap request))
    as [e|[|c chunks]]; try lia.
  rewrite posts_app, length_app. simpl. lia.
Qed.

(** X11. A vector that does not pass validation fails the whole request: the
    answer is the status 500 with the message of the first vector refused
    among those at the positions of the chunks, and no chunk is returned. *)
Theorem invalid_vector_fails_request {lib : LlamaIndex.Lib}
    (as_float_list : Py.value -> Py.result (list Py.float))
    (remote : Net.provider) (settings : Config.Settings)
    (request : Route.ChunkRequest) (l : Net.log)
    (chunks : list Chunker.chunk) (response : Net.response)
    (vectors : list Py.value) (e : Py.exn) :
  let texts := map Chunker.content chunks in
  let sent := Embedder.embeddings_request settings texts in
  let l' := l ++ [Net.ClientOpened; Net.Posted sent; Net.ClientClosed] in
  Chunker.chunk_document settings (Route.req_content request)
    (Route.req_chunk_size request) (Route.req_chunk_overlap request)
    = inr chunks ->
  chunks <> [] ->
  remote (l ++ [Net.ClientOpened]) sent = inr response ->
  Net.status_code response = 200 ->
  Embedder.embeddings_of response = inr vectors ->
  Py.for_each as_float_list (firstn (List.length chunks) vectors) = inl e ->
  Route.create_chunks as_float_list remote settings request l
  = (Route.Failed {| Route.status_code := 500;
                     Route.detail := Py.str e |}, l').
Proof.
  intros texts sent l' Hchunks Hne Hanswer Hstatus Hvectors Hinvalid.
  assert (Htexts : texts <> []).
  { subst texts. destruct chunks; [contradiction | discriminate]. }
  rewrite create_chunks_run, Hchunks.
  destruct chunks as [|c chunks]; [contradiction|].
  fold texts.
  rewrite (generate_embeddings_run remote settings texts l Htexts).
  fold sent. rewrite Hanswer, Hstatus, Hvectors. cbn [Z.eqb Pos.eqb].
  rewrite assemble_zip, Hinvalid. reflexivity.
Qed.

Lemma invalid_vector_fails_request_witness :
  Route.create_chunks (lib := Double.by_sentence) Double.as_float_list
    (fun _ _ =>
       inr {| Net.status_code := 200;
              Net.text := "";
              Net.decoded :=
                inr (Py.Dict
                       [("data"%string,
                         Py.List [Double.item_of [Double.one];
                                  Py.Dict [("embedding"%string,
                                            Py.Str "n/a")]])]) |})
    Config.defaults (Double.request_of "One. Two." None None) []
  = (Route.Failed {| Route.status_code := 500;
                     Route.detail := "Input should be a valid list" |},
     [Net.ClientOpened;
      Net.Posted (Embedder.embeddings_request Config.defaults
                    ["One."; " Two."]%string);
      Net.ClientClosed]).
Proof.
  apply (invalid_vector_fails_request (lib := Double.by_sentence)
           Double.as_float_list _ Config.defaults
           (Double.request_of "One. Two." None None) []
           [{| Chunker.content := "One."; Chunker.chunk_index := 0 |};
            {| Chunker.content := " Two."; Chunker.chunk_index := 1 |}]
           {| Net.status_code := 200;
              Net.text := "";
              Net.decoded :=
                inr (Py.Dict
                       [("data"%string,
                         Py.List [Double.item_of [Double.one];
                                  Py.Dict [("embedding"%string,
                                            Py.Str "n/a")]])]) |}
           [Py.List [Py.Float Double.one]; Py.Str "n/a"]
           (Py.Raised "ValidationError" "Input should be a valid list")).
  - reflexivity.
  - discriminate.
  - reflexivity.
  - reflexivity.
  - reflexivity.
  - reflexivity.
Defined.

(** X12. The vectors beyond the number of chunks play no part: two answers of
    the provider that agree on the vectors at the positions of the chunks
    give the same answer of the handler, whatever else they list. *)
Theorem surplus_vectors_are_ignored {lib : LlamaIndex.Lib}
    (as_float_list : Py.value -> Py.result (list Py.float))
    (remote remote' : Net.provider) (settings : Config.Settings)
    (request : Route.ChunkRequest) (l : Net.log)
    (chunks : list Chunker.chunk) (response response' : Net.response)
    (vectors vectors' : list Py.value) :
  let sent := Embedder.embeddings_request settings (map Chunker.content chunks) in
  Chunker.chunk_document settings (Route.req_content request)
    (Route.req_chunk_size request) (Route.req_chunk_overlap request)
    = inr chunks ->
  remote (l ++ [Net.ClientOpened]) sent = inr response ->
  remote' (l ++ [Net.ClientOpened]) sent = inr response' ->
  Net.status_code response = 200 ->
  Net.status_code response' = 200 ->
  Embedder.embeddings_of response = inr vectors ->
  Embedder.embeddings_of response' = inr vectors' ->
  firstn (List.length chunks) vectors = firstn (List.length chunks) vectors' ->
  Route.create_chunks as_float_list remote settings request l
  = Route.create_chunks as_float_list remote' settings request l.
Proof.
  intros sent Hchunks Hanswer Hanswer' Hstatus Hstatus' Hvectors Hvectors' Hsame.
  rewrite !create_chunks_run, Hchunks.
  destruct chunks as [|c chunks]; [reflexivity|].
  rewrite !generate_embeddings_run by discriminate.
  fold sent.
  rewrite Hanswer, Hanswer', Hstatus, Hstatus', Hvectors, Hvectors'.
  cbn [Z.eqb Pos.eqb].
  now rewrite !assemble_zip, Hsame.
Qed.

Lemma surplus_vectors_are_ignored_witness :
  Route.create_chunks (lib := Double.by_sentence) Double.as_float_list
    Double.faithful Config.defaults (Double.request_of "Hello." None None) []
  = Route.create_chunks (lib := Double.by_sentence) Double.as_float_list
      (fun _ _ =>
         inr {| Net.status_code := 200;
                Net.text := "";
                Net.decoded :=
                  inr (Py.Dict
                         [("data"%string,
                           Py.List [Double.item_of (Double.vector_of "Hello.");
                                    Py.Dict [("embedding"%string,
                                              Py.None_)]])]) |})
      Config.defaults (Double.request_of "Hello." None None) [].
Proof.
  apply (surplus_vectors_are_ignored (lib := Double.by_sentence)
           Double.as_float_list Double.faithful _ Config.defaults
           (Double.request_of "Hello." None None) []
           [{| Chunker.content := "Hello."; Chunker.chunk_index := 0 |}]
           (Double.ok [Double.vector_of "Hello."])
           {| Net.status_code := 200;
              Net.text := "";
              Net.decoded :=
                inr (Py.Dict
                       [("data"%string,
                         Py.List [Double.item_of (Double.vector_of "Hello.");
                                  Py.Dict [("embedding"%string,
                                            Py.None_)]])]) |}
           [Py.List (map Py.Float (Double.vector_of "Hello."))]
           [Py.List (map Py.Float (Double.vector_of "Hello.")); Py.None_]).
  - reflexivity.
  - reflexivity.
  - reflexivity.
  - reflexivity.
  - reflexivity.
  - reflexivity.
  - reflexivity.
  - reflexivity.
Defined.

(** X13. The metadata of a request never leaves the service and decides nothing:
    with another metadata the same events are logged (the provider is sent
    the same request), a failure is the same failure, and a success returns
    the same chunks, vectors and numbers with the other metadata on each. *)
Theorem metadata_stays_local {lib : LlamaIndex.Lib}
    (as_float_list : Py.value -> Py.result (list Py.float))
    (remote : Net.provider) (settings : Config.Settings)
    (request : Route.ChunkRequest) (metadata' : Route.metadata_t)
    (l : Net.log) :
  let request' :=
    {| Route.req_content := Route.req_content request;
       Route.req_metadata := metadata';
       Route.req_chunk_size := Route.req_chunk_size request;
       Route.req_chunk_overlap := Route.req_chunk_overlap request |} in
  let answer := Route.create_chunks as_float_list remote settings request l in
  let answer' := Route.create_chunks as_float_list remote settings request' l in
  let relabel (c : Route.ChunkResponse) :=
    {| Route.content := Route.content c;
       Route.embedding := Route.embedding c;
       Route.chunk_index := Route.chunk_index c;
       Route.metadata := metadata' |} in
  snd answer' = snd answer
  /\ (forall failure,
        fst answer = Route.Failed failure -> fst answer' = Route.Failed failure)
  /\ (forall r,
        fst answer = Route.Returned r ->
        fst answer'
        = Route.Returned {| Route.chunks := map relabel (Route.chunks r);
                            Route.total_chunks := Route.total_chunks r |}).
Proof.
  intros request' answer answer' relabel.
  subst answer answer' request'.
  rewrite !create_chunks_run.
  cbn [Route.req_content Route.req_metadata Route.req_chunk_size
       Route.req_chunk_overlap].
  destruct (Chunker.chunk_document settings (Route.req_content request)
              (Route.req_chunk_size request) (Route.req_chunk_overlap request))
    as [e|[|c chunks]].
  - cbn [fst snd]. repeat split; [auto | discriminate].
  - cbn [fst snd]. repeat split; [discriminate|].
    intros r H. injection H as <-. reflexivity.
  - destruct (Embedder.generate_embeddings remote settings
                (map Chunker.content (c :: chunks)) l) as [[e|vectors] l'].
    + cbn [fst snd]. repeat split; [auto | discriminate].
    + rewrite !assemble_zip.
      destruct (Py.for_each as_float_list
                  (firstn (List.length (c :: chunks)) vectors)) as [e|floats].
      * cbn [fst snd]. repeat split; [auto | discriminate].
      * cbn [fst snd]. repeat split; [discriminate|].
        intros r H. injection H as <-.
        cbn [Route.chunks Route.total_chunks app].
        rewrite !length_map, map_map. reflexivity.
Qed.

Lemma metadata_stays_local_witness :
  fst (Route.create_chunks (lib := Double.by_sentence) Double.as_float_list
         Double.faithful Config.defaults
         {| Route.req_content := "Hello.";
            Route.req_metadata := None;
            Route.req_chunk_size := None;
            Route.req_chunk_overlap := None |} [])
  = Route.Returned
      {| Route.chunks :=
           [Route.response_of None
              {| Chunker.content := "Hello."; Chunker.chunk_index := 0 |}
              (Double.vector_of "Hello.")];
         Route.total_chunks := 1 |}.
Proof.
  pose proof (metadata_stays_local (lib := Double.by_sentence)
                Double.as_float_list Double.faithful Config.defaults
                (Double.request_of "Hello." None None) None [])
    as (_ & _ & Hsuccess).
  exact (Hsuccess
           {| Route.chunks :=
                [Route.response_of (Some [("source"%string, Py.Str "manual")])
                   {| Chunker.content := "Hello."; Chunker.chunk_index := 0 |}
                   (Double.vector_of "Hello.")];
              Route.total_chunks := 1 |} eq_refl).
Defined.

(** ** [generate_embedding], the single-text function *)

Lemma single_posts_app (l l' : Single.log) :
  Single.posts (l ++ l') = Single.posts l ++ Single.posts l'.
Proof.
  induction l as [|ev l IH]; simpl; [reflexivity|].
  destruct ev; simpl; now rewrite IH.
Qed.

Lemma generate_embedding_run (remote : Single.provider)
    (settings : Config.Settings) (text : string) (l : Single.log) :
  Single.generate_embedding remote settings text l
  = (match remote (l ++ [Single.ClientOpened])
             (Single.embedding_request settings text) with
     | inl e => inl e
     | inr response =>
         if Net.status_code response =? 200
         then Single.first_embedding_of response
         else inl (Py.Exception
                     ("OpenRouter embedding failed: " ++ Net.text response)%string)
     end,
     l ++ [Single.ClientOpened;
           Single.Posted (Single.embedding_request settings text);
           Single.ClientClosed]).
Proof.
  unfold Single.generate_embedding, Single.with_client, Single.post,
    Single.bind, Single.finally, Single.emit, Single.raise, Single.lift.
  cbv beta iota. simpl snd.
  destruct (remote (l ++ [Single.ClientOpened])
              (Single.embedding_request settings text)) as [e|response].
  - rewrite <- !app_assoc. reflexivity.
  - destruct (Net.status_code response =? 200); simpl;
      rewrite <- !app_assoc; reflexivity.
Qed.

(** X14. [generate_embedding] has no guard on its argument: for every text, the
    empty one included, and whatever the provider does, it opens a client,
    posts one request that carries the text as a bare string, and closes the
    client. *)
Theorem single_text_always_posts (remote : Single.provider)
    (settings : Config.Settings) (text : string) (l : Single.log) :
  let sent := Single.embedding_request settings text in
  let l' := snd (Single.generate_embedding remote settings text l) in
  l' = l ++ [Single.ClientOpened; Single.Posted sent; Single.ClientClosed]
  /\ Single.posts l' = Single.posts l ++ [sent]
  /\ Single.input (Single.json sent) = text.
Proof.
  intros sent l'. subst l'.
  rewrite generate_embedding_run. cbn [snd].
  split; [reflexivity|]. split; [|reflexivity].
  rewrite single_posts_app. reflexivity.
Qed.

(** X15. On a status 200 whose ["data"] is a list that is not empty, the result
    is the ["embedding"] field of the first item; the other items are not
    looked at. *)
Theorem single_text_first_vector (remote : Single.provider)
    (settings : Config.Settings) (text : string) (l : Single.log)
    (response : Net.response) (data item v : Py.value)
    (others : list Py.value) :
  remote (l ++ [Single.ClientOpened]) (Single.embedding_request settings text)
    = inr response ->
  Net.status_code response = 200 ->
  Net.decoded response = inr data ->
  Py.getitem data "data" = inr (Py.List (item :: others)) ->
  Py.getitem item "embedding" = inr v ->
  fst (Single.generate_embedding remote settings text l) = inr v.
Proof.
  intros Hanswer Hstatus Hdata Hitems Hv.
  rewrite generate_embedding_run, Hanswer, Hstatus. cbn [fst Z.eqb Pos.eqb].
  unfold Single.first_embedding_of. rewrite Hdata. simpl.
  rewrite Hitems. simpl. exact Hv.
Qed.

Lemma single_text_first_vector_witness :
  fst (Single.generate_embedding
         (fun _ _ =>
            inr {| Net.status_code := 200;
                   Net.text := "";
                   Net.decoded :=
                     inr (Py.Dict
                            [("data"%string,
                              Py.List [Double.item_of [Double.one];
                                       Py.None_])]) |})
         Config.defaults "Hello." [])
  = inr (Py.List [Py.Float Double.one]).
Proof.
  apply (single_text_first_vector _ Config.defaults "Hello." []
           {| Net.status_code := 200;
              Net.text := "";
              Net.decoded :=
                inr (Py.Dict
                       [("data"%string,
                         Py.List [Double.item_of [Double.one]; Py.None_])]) |}
           (Py.Dict [("data"%string,
                      Py.List [Double.item_of [Double.one]; Py.None_])])
           (Double.item_of [Double.one]) (Py.List [Py.Float Double.one])
           [Py.None_]).
  - reflexivity.
  - reflexivity.
  - reflexivity.
  - reflexivity.
  - reflexivity.
Defined.

(** X16. The two ways [generate_embedding] fails on an answer: a status other
    than 200 raises an [Exception] with the text of the answer, and a status
    200 whose ["data"] is the empty list raises an [IndexError]. *)
Theorem single_text_failures (remote : Single.provider)
    (settings : Config.Settings) (text : string) (l : Single.log)
    (response : Net.response) :
  remote (l ++ [Single.ClientOpened]) (Single.embedding_request settings text)
    = inr response ->
  let outcome := fst (Single.generate_embedding remote settings text l) in
  (Net.status_code response <> 200 ->
   outcome = inl (Py.Exception
                    ("OpenRouter embedding failed: " ++ Net.text response)%string))
  /\ (forall data,
        Net.status_code response = 200 ->
        Net.decoded response = inr data ->
        Py.getitem data "data" = inr (Py.List []) ->
        outcome = inl (Py.Raised "IndexError" "list index out of range")).
Proof.
  intros Hanswer outcome. subst outcome.
  rewrite generate_embedding_run, Hanswer. cbn [fst].
  split.
  - intros Hstatus.
    destruct (Z.eqb_spec (Net.status_code response) 200); [contradiction|].
    reflexivity.
  - intros data Hstatus Hdata Hitems.
    rewrite Hstatus. cbn [Z.eqb Pos.eqb].
    unfold Single.first_embedding_of. rewrite Hdata. simpl.
    rewrite Hitems. reflexivity.
Qed.

Lemma single_text_failures_witness :
  fst (Single.generate_embedding
         (fun _ _ => inr (Double.ok [])) Config.defaults "Hello." [])
  = inl (Py.Raised "IndexError" "list index out of range").
Proof.
  apply (single_text_failures (fun _ _ => inr (Double.ok []))
           Config.defaults "Hello." [] (Double.ok []) eq_refl)
    with (data := Double.payload []).
  - reflexivity.
  - reflexivity.
  - reflexivity.
Defined.

(** X17. The two functions read an answer alike: whenever the decoding of
    [generate_embeddings] yields a list of vectors that is not empty, the
    decoding of [generate_embedding] yields the first of them. *)
Theorem single_agrees_with_batch (response : Net.response)
    (v : Py.value) (vs : list Py.value) :
  Embedder.embeddings_of response = inr (v :: vs) ->
  Single.first_embedding_of response = inr v.
Proof.
  unfold Embedder.embeddings_of, Single.first_embedding_of.
  destruct (Net.decoded response) as [e|data]; simpl; [discriminate|].
  destruct (Py.getitem data "data") as [e|entries]; simpl; [discriminate|].
  destruct entries as [| | | |s|items|d]; simpl; try discriminate.
  - destruct s as [|c s]; simpl; discriminate.
  - destruct items as [|item items]; simpl; [discriminate|].
    destruct (Py.getitem item "embedding") as [e|v'] eqn:Hitem; simpl;
      [discriminate|].
    destruct (Py.for_each (fun item => Py.getitem item "embedding") items)
      as [e|vs']; simpl; [discriminate|].
    intros H. injection H as -> _. reflexivity.
  - destruct d as [|[k x] d]; simpl; discriminate.
Qed.

Lemma single_agrees_with_batch_witness :
  Single.first_embedding_of (Double.ok [[Double.one]; [Double.zero]])
  = inr (Py.List [Py.Float Double.one]).
Proof.
  apply (single_agrees_with_batch (Double.ok [[Double.one]; [Double.zero]])
           (Py.List [Py.Float Double.one]) [Py.List [Py.Float Double.zero]]).
  reflexivity.
Defined.

(** ** No chunk without an answer of the provider *)

Lemma assembled_vectors (as_float_list : Py.value -> Py.result (list Py.float))
    (metadata : Route.metadata_t) (chunks : list Chunker.chunk)
    (vectors : list Py.value) (result : list Route.ChunkResponse) :
  Route.assemble as_float_list (Py.zip chunks vectors) metadata [] = inr result ->
  Forall2 (fun c v => as_float_list v = inr (Route.embedding c))
    result (firstn (List.length result) vectors).
Proof.
  rewrite assemble_zip.
  destruct (Py.for_each as_float_list (firstn (List.length chunks) vectors))
    as [e|floats] eqn:Hfloats; [discriminate|].
  intros H. injection H as <-. cbn [app]. rewrite length_map.
  apply for_each_Forall2 in Hfloats.
  revert vectors floats Hfloats.
  induction chunks as [|c chunks IH]; intros vectors floats Hfloats.
  - simpl. constructor.
  - destruct vectors as [|v vectors]; simpl in Hfloats.
    + inversion Hfloats; subst. simpl. constructor.
    + inversion Hfloats as [|v' f vs' fs Hv Hrest]; subst.
      simpl. constructor; [exact Hv|]. now apply IH.
Qed.

(** X18. A success that returns at least one chunk was made from an answer of
    the provider with status 200 whose decoding succeeded: the handler never
    makes up a vector. *)
Theorem chunks_come_from_a_200 {lib : LlamaIndex.Lib}
    (as_float_list : Py.value -> Py.result (list Py.float))
    (remote : Net.provider) (settings : Config.Settings)
    (request : Route.ChunkRequest) (l : Net.log) (r : Route.ChunkResult) :
  fst (Route.create_chunks as_float_list remote settings request l)
    = Route.Returned r ->
  Route.chunks r <> [] ->
  exists chunks response vectors,
    Chunker.chunk_document settings (Route.req_content request)
      (Route.req_chunk_size request) (Route.req_chunk_overlap request)
      = inr chunks
    /\ remote (l ++ [Net.ClientOpened])
         (Embedder.embeddings_request settings (map Chunker.content chunks))
       = inr response
    /\ Net.status_code response = 200
    /\ Embedder.embeddings_of response = inr vectors
    /\ Forall2 (fun c v => as_float_list v = inr (Route.embedding c))
         (Route.chunks r) (firstn (List.length (Route.chunks r)) vectors).
Proof.
  rewrite create_chunks_run.
  destruct (Chunker.chunk_document settings (Route.req_content request)
              (Route.req_chunk_size request) (Route.req_chunk_overlap request))
    as [e|[|c chunks]]; cbn [fst].
  - discriminate.
  - intros H Hne. injection H as <-. contradiction.
  - rewrite generate_embeddings_run by discriminate.
    destruct (remote (l ++ [Net.ClientOpened])
                (Embedder.embeddings_request settings
                   (map Chunker.content (c :: chunks))))
      as [e|response] eqn:Hanswer; [discriminate|].
    destruct (Z.eqb_spec (Net.status_code response) 200) as [Hstatus|_];
      [|discriminate].
    destruct (Embedder.embeddings_of response) as [e|vectors] eqn:Hvectors;
      [discriminate|].
    destruct (Route.assemble as_float_list (Py.zip (c :: chunks) vectors)
                (Route.req_metadata request) []) as [e|result] eqn:Hloop;
      cbn [fst]; [discriminate|].
    intros H _. injection H as <-. cbn [Route.chunks].
    exists (c :: chunks), response, vectors.
    split; [reflexivity|]. split; [exact Hanswer|].
    split; [exact Hstatus|]. split; [exact Hvectors|].
    exact (assembled_vectors _ _ _ _ _ Hloop).
Qed.

Lemma chunks_come_from_a_200_witness :
  exists chunks response vectors,
    Chunker.chunk_document (lib := Double.by_sentence) Config.defaults
      "Hello." None None = inr chunks
    /\ Double.faithful [Net.ClientOpened]
         (Embedder.embeddings_request Config.defaults
            (map Chunker.content chunks))
       = inr response
    /\ Net.status_code response = 200
    /\ Embedder.embeddings_of response = inr vectors
    /\ Forall2 (fun c v => Double.as_float_list v = inr (Route.embedding c))
         [Route.response_of (Some [("source"%string, Py.Str "manual")])
            {| Chunker.content := "Hello."; Chunker.chunk_index := 0 |}
            (Double.vector_of "Hello.")]
         (firstn 1 vectors).
Proof.
  apply (chunks_come_from_a_200 (lib := Double.by_sentence)
           Double.as_float_list Double.faithful Config.defaults
           (Double.request_of "Hello." None None) []
           {| Route.chunks :=
                [Route.response_of (Some [("source"%string, Py.Str "manual")])
                   {| Chunker.content := "Hello."; Chunker.chunk_index := 0 |}
                   (Double.vector_of "Hello.")];
              Route.total_chunks := 1 |}).
  - reflexivity.
  - discriminate.
Defined.
